(** * Security notification handlers and WAF log router

    A shallow embedding of three AWS Lambda handlers:
    - [security_alert_email_handler.py] ([EmailHandler.lambda_handler]),
    - [security_alert_slack_handler.py] ([SlackHandler.lambda_handler]),
    - [waf_log_router.py] ([WafLogRouter.lambda_handler]).

    Python values reaching the handlers come from [json.loads], so they are
    modelled as [json].  Strings are Rocq strings of 8-bit characters (the
    UTF-8 bytes of the Python text).  A Python exception that is raised and
    not caught is the [Raise] branch of [res]. *)

From Stdlib Require Import String Ascii List ZArith Bool Lia.
From Stdlib Require Import Numbers.DecimalString.
Import ListNotations.
Open Scope string_scope.
Set Warnings "-register-all".

(** ** Python values produced by [json.loads] *)

(** Numbers are kept as integers: fractional and exponent forms are not
    modelled (no claim depends on them). *)
Inductive json : Type :=
| JNull
| JBool (b : bool)
| JNum (n : Z)
| JStr (s : string)
| JArr (l : list json)
| JObj (kvs : list (string * json)).

(** Python exceptions, by the class the handlers can meet. *)
Inductive exn : Type :=
| KeyError (k : string)
| KeyErrorOther (r : string)  (* a key that is not a string, by its [repr] *)
| IndexError
| IndexErrorStr  (* an index past the end of a [str] *)
| TypeError (msg : string)
| AttributeError (msg : string)
| ValueError (msg : string)
| Exception (msg : string).

(** [str(e)] of an exception, as the handlers put it in their error result. *)
Definition exn_str (e : exn) : string :=
  match e with
  | KeyError k => "'" ++ k ++ "'"
  | KeyErrorOther r => r
  | IndexError => "list index out of range"
  | IndexErrorStr => "string index out of range"
  | TypeError m | AttributeError m | ValueError m | Exception m => m
  end.

(** A computation that returns a value or raises. *)
Inductive res (A : Type) : Type :=
| Ret (a : A)
| Raise (e : exn).
Arguments Ret {A} a.
Arguments Raise {A} e.

Definition bind {A B} (m : res A) (f : A -> res B) : res B :=
  match m with
  | Ret a => f a
  | Raise e => Raise e
  end.

Notation "x <- m ;; k" := (bind m (fun x => k))
  (at level 61, m at next level, right associativity).

(** ** Characters

    A Python [str] is a sequence of code points; a Rocq string holds their
    UTF-8 encoding.  [utf8_chars] cuts the bytes into the characters: a byte
    in 0x80-0xBF continues the character before it.  Code points are [N]. *)

Definition is_cont (c : ascii) : bool :=
  let n := nat_of_ascii c in (128 <=? n)%nat && (n <=? 191)%nat.

Fixpoint utf8_chars (cs : list ascii) : list (list ascii) :=
  match cs with
  | [] => []
  | c :: r =>
      match utf8_chars r with
      | (d :: g) :: gs => if is_cont d then (c :: d :: g) :: gs else [c] :: (d :: g) :: gs
      | gs => [c] :: gs
      end
  end.

(** The code point of one character. *)
Definition utf8_code (g : list ascii) : option N :=
  match map N_of_ascii g with
  | [b0] => if (b0 <? 128)%N then Some b0 else None
  | [b0; b1] =>
      if (192 <=? b0)%N && (b0 <? 224)%N then Some ((b0 - 192) * 64 + (b1 - 128))%N
      else None
  | [b0; b1; b2] =>
      if (224 <=? b0)%N && (b0 <? 240)%N
      then Some (((b0 - 224) * 64 + (b1 - 128)) * 64 + (b2 - 128))%N else None
  | [b0; b1; b2; b3] =>
      if (240 <=? b0)%N && (b0 <? 248)%N
      then Some ((((b0 - 240) * 64 + (b1 - 128)) * 64 + (b2 - 128)) * 64 + (b3 - 128))%N
      else None
  | _ => None
  end.

(** The UTF-8 encoding of a code point. *)
Definition utf8_encode (n : N) : list ascii :=
  if (n <? 128)%N then [ascii_of_N n]
  else if (n <? 2048)%N then
    [ascii_of_N (192 + n / 64); ascii_of_N (128 + n mod 64)]
  else if (n <? 65536)%N then
    [ascii_of_N (224 + n / 4096); ascii_of_N (128 + (n / 64) mod 64);
     ascii_of_N (128 + n mod 64)]
  else [ascii_of_N (240 + n / 262144); ascii_of_N (128 + (n / 4096) mod 64);
        ascii_of_N (128 + (n / 64) mod 64); ascii_of_N (128 + n mod 64)].

(** ** Python operations on values *)

(** Dict lookup: [json.loads] keeps the last of duplicate keys. *)
Fixpoint assoc_last (kvs : list (string * json)) (k : string) : option json :=
  match kvs with
  | [] => None
  | (k', v) :: t =>
      match assoc_last t k with
      | Some w => Some w
      | None => if String.eqb k k' then Some v else None
      end
  end.

(** [type(x).__name__], which the messages of [TypeError] and
    [AttributeError] quote. *)
Definition py_type_name (x : json) : string :=
  match x with
  | JNull => "NoneType"
  | JBool _ => "bool"
  | JNum _ => "int"
  | JStr _ => "str"
  | JArr _ => "list"
  | JObj _ => "dict"
  end.

(** ["'<type>' object ..."]. *)
Definition type_msg (x : json) (what : string) : string :=
  "'" ++ py_type_name x ++ "' object " ++ what.

(** [x.get(k, d)]: only dicts have [get]. *)
Definition py_get (x : json) (k : string) (d : json) : res json :=
  match x with
  | JObj kvs => Ret (match assoc_last kvs k with Some v => v | None => d end)
  | _ => Raise (AttributeError (type_msg x "has no attribute 'get'"))
  end.

(** [v == "s"] for a value [v] and a string literal. *)
Definition py_eq_str (v : json) (s : string) : bool :=
  match v with
  | JStr s' => String.eqb s' s
  | _ => false
  end.

Fixpoint is_substring (needle hay : string) : bool :=
  String.prefix needle hay ||
  match hay with
  | EmptyString => false
  | String _ t => is_substring needle t
  end.

(** [k in x] for a string [k]: key test on dicts, element test on lists,
    substring test on strings, [TypeError] otherwise. *)
Definition py_contains (k : string) (x : json) : res bool :=
  match x with
  | JObj kvs => Ret (match assoc_last kvs k with Some _ => true | None => false end)
  | JArr l => Ret (existsb (fun v => py_eq_str v k) l)
  | JStr s => Ret (is_substring k s)
  | _ => Raise (TypeError ("argument of type '" ++ py_type_name x ++ "' is not iterable"))
  end.

(** [x[k]] for a string key [k]. *)
Definition py_getitem (x : json) (k : string) : res json :=
  match x with
  | JObj kvs =>
      match assoc_last kvs k with Some v => Ret v | None => Raise (KeyError k) end
  | JArr _ => Raise (TypeError "list indices must be integers or slices, not str")
  | JStr _ => Raise (TypeError "string indices must be integers, not 'str'")
  | _ => Raise (TypeError (type_msg x "is not subscriptable"))
  end.

(** [x[0]]: JSON object keys are strings, so the integer key 0 is never in a
    dict. *)
Definition py_getitem0 (x : json) : res json :=
  match x with
  | JArr (v :: _) => Ret v
  | JArr [] => Raise IndexError
  | JObj _ => Raise (KeyErrorOther "0")
  | JStr s =>
      match utf8_chars (list_ascii_of_string s) with
      | g :: _ => Ret (JStr (string_of_list_ascii g))
      | [] => Raise IndexErrorStr
      end
  | _ => Raise (TypeError (type_msg x "is not subscriptable"))
  end.

(** [for r in x]: lists give their elements, dicts their keys, strings their
    characters. *)
Definition py_iter (x : json) : res (list json) :=
  match x with
  | JArr l => Ret l
  | JObj kvs => Ret (map (fun kv => JStr (fst kv)) kvs)
  | JStr s => Ret (map (fun g => JStr (string_of_list_ascii g)) (utf8_chars (list_ascii_of_string s)))
  | _ => Raise (TypeError (type_msg x "is not iterable"))
  end.

(** Truth value ([if x], [x or y]). *)
Definition py_truthy (x : json) : bool :=
  match x with
  | JNull => false
  | JBool b => b
  | JNum n => negb (Z.eqb n 0)
  | JStr s => negb (String.eqb s "")
  | JArr l => match l with [] => false | _ => true end
  | JObj kvs => match kvs with [] => false | _ => true end
  end.

(** [x or d]. *)
Definition py_or (x d : json) : json := if py_truthy x then x else d.

Definition Z_to_dec (n : Z) : string := NilEmpty.string_of_int (Z.to_int n).

(** A lower-case hexadecimal digit, and [k] of them for [n]. *)
Definition hex_digit (n : N) : ascii :=
  if (n <? 10)%N then ascii_of_N (48 + n) else ascii_of_N (87 + n).

Fixpoint hex_digits (k : nat) (n : N) : string :=
  match k with
  | O => ""
  | S k' => hex_digits k' (n / 16) ++ String (hex_digit (n mod 16)) EmptyString
  end.

Definition dquote : ascii := ascii_of_nat 34.

(** One character inside the quotes of [repr] with quote [q]: backslash,
    the quote, [\t], [\n], [\r] are escaped, and so are the other ASCII
    controls and the Latin-1 characters that are not printable
    (U+0080-U+00A0, U+00AD) as [\xNN].  Characters above U+00FF are printed
    as they are, which is what [repr] does for the printable ones. *)
Definition repr_char (q : ascii) (g : list ascii) : string :=
  match utf8_code g with
  | Some n =>
      if (n =? 92)%N then "\\"
      else if (n =? N_of_ascii q)%N then String "\" (String q EmptyString)
      else if (n =? 9)%N then "\t"
      else if (n =? 10)%N then "\n"
      else if (n =? 13)%N then "\r"
      else if (n <? 32)%N || (n =? 127)%N || ((128 <=? n)%N && (n <=? 160)%N)
              || (n =? 173)%N
      then "\x" ++ hex_digits 2 n
      else string_of_list_ascii g
  | None => string_of_list_ascii g
  end.

(** [repr] of a string: single quotes, or double quotes when the string
    contains a single quote and no double quote. *)
Definition py_repr_str (s : string) : string :=
  let cs := list_ascii_of_string s in
  let q := if existsb (Ascii.eqb "'"%char) cs && negb (existsb (Ascii.eqb dquote) cs)
           then dquote else "'"%char in
  String q (String.concat "" (map (repr_char q) (utf8_chars cs)) ++ String q EmptyString).

Fixpoint join (sep : string) (l : list string) : string :=
  match l with
  | [] => ""
  | [x] => x
  | x :: t => x ++ sep ++ join sep t
  end.

(** [repr] of a value (what [str] prints inside containers). *)
Fixpoint py_repr (x : json) : string :=
  match x with
  | JNull => "None"
  | JBool true => "True"
  | JBool false => "False"
  | JNum n => Z_to_dec n
  | JStr s => py_repr_str s
  | JArr l => "[" ++ join ", " (map py_repr l) ++ "]"
  | JObj kvs =>
      "{" ++ join ", " (map (fun kv => py_repr_str (fst kv) ++ ": " ++ py_repr (snd kv)) kvs)
      ++ "}"
  end.

(** [str(x)], which is also what an f-string [{x}] prints. *)
Definition py_str (x : json) : string :=
  match x with
  | JStr s => s
  | _ => py_repr x
  end.

(** The upper case of a code point, as [str.upper] gives it: exact on
    ASCII, Latin-1, the basic Greek and Cyrillic lower-case letters, and on
    every character whose upper case is ASCII text (U+00DF, U+0131, U+017F,
    the ligatures U+FB00-U+FB06).  Other characters are kept as they are;
    where [str.upper] changes one of them, both results are non-ASCII, so a
    comparison of the result with an ASCII word (the only use the handlers
    make of it) has the same outcome. *)
Definition upper_cp (n : N) : list N :=
  if (97 <=? n)%N && (n <=? 122)%N then [n - 32]%N
  else if (n =? 181)%N then [924%N]
  else if (n =? 223)%N then [83; 83]%N
  else if (224 <=? n)%N && (n <=? 254)%N && negb (n =? 247)%N then [n - 32]%N
  else if (n =? 255)%N then [376%N]
  else if (n =? 305)%N then [73%N]
  else if (n =? 383)%N then [83%N]
  else if (945 <=? n)%N && (n <=? 969)%N && negb (n =? 962)%N then [n - 32]%N
  else if (n =? 962)%N then [931%N]
  else if (1072 <=? n)%N && (n <=? 1103)%N then [n - 32]%N
  else if (1104 <=? n)%N && (n <=? 1119)%N then [n - 80]%N
  else if (n =? 64256)%N then [70; 70]%N
  else if (n =? 64257)%N then [70; 73]%N
  else if (n =? 64258)%N then [70; 76]%N
  else if (n =? 64259)%N then [70; 70; 73]%N
  else if (n =? 64260)%N then [70; 70; 76]%N
  else if (n =? 64261)%N || (n =? 64262)%N then [83; 84]%N
  else [n].

Definition upper_char (g : list ascii) : list ascii :=
  match utf8_code g with
  | Some n => concat (map utf8_encode (upper_cp n))
  | None => g
  end.

(** [s.upper()]. *)
Definition py_upper (s : string) : string :=
  string_of_list_ascii (concat (map upper_char (utf8_chars (list_ascii_of_string s)))).

(** ** Library functions: [json.dumps(x, indent=2)], [json.loads], [base64.b64decode] *)

(** [\uXXXX]. *)
Definition u_escape (n : N) : string := "\u" ++ hex_digits 4 n.

(** One character of a JSON string literal with [ensure_ascii]: characters
    outside the printable ASCII range are escaped by their code point, those
    above U+FFFF as a surrogate pair. *)
Definition json_escape_char (g : list ascii) : string :=
  match utf8_code g with
  | Some n =>
      if (n =? 34)%N then String "\" (String dquote EmptyString)
      else if (n =? 92)%N then "\\"
      else if (n =? 10)%N then "\n"
      else if (n =? 13)%N then "\r"
      else if (n =? 9)%N then "\t"
      else if (n =? 8)%N then "\b"
      else if (n =? 12)%N then "\f"
      else if (n <? 32)%N then u_escape n
      else if (n <? 127)%N then string_of_list_ascii g
      else if (n <? 65536)%N then u_escape n
      else u_escape (55296 + (n - 65536) / 1024) ++ u_escape (56320 + (n - 65536) mod 1024)
  | None => string_of_list_ascii g
  end.

Definition json_quote (s : string) : string :=
  let q := String dquote EmptyString in
  q ++ String.concat "" (map json_escape_char (utf8_chars (list_ascii_of_string s))) ++ q.

Fixpoint spaces (n : nat) : string :=
  match n with O => "" | S k => "  " ++ spaces k end.

Definition nl : string := String (ascii_of_nat 10) EmptyString.

(** [json.dumps(x, indent=2)] at nesting [level]. *)
Fixpoint json_dumps_at (level : nat) (x : json) : string :=
  match x with
  | JNull => "null"
  | JBool true => "true"
  | JBool false => "false"
  | JNum n => Z_to_dec n
  | JStr s => json_quote s
  | JArr [] => "[]"
  | JArr l =>
      "[" ++ nl ++ spaces (S level)
      ++ join ("," ++ nl ++ spaces (S level)) (map (json_dumps_at (S level)) l)
      ++ nl ++ spaces level ++ "]"
  | JObj [] => "{}"
  | JObj kvs =>
      "{" ++ nl ++ spaces (S level)
      ++ join ("," ++ nl ++ spaces (S level))
           (map (fun kv => json_quote (fst kv) ++ ": " ++ json_dumps_at (S level) (snd kv)) kvs)
      ++ nl ++ spaces level ++ "}"
  end.

Definition json_dumps (x : json) : string := json_dumps_at 0 x.

(** A parser for [json.loads]: the handlers' theorems take the parser as a
    parameter, this one evaluates them on concrete messages.  Numbers with a
    fraction or an exponent, and [NaN]/[Infinity], are rejected; a [\u]
    escape gives its code point in UTF-8, a surrogate pair the code point it
    stands for. *)
Module JsonParse.

Definition is_ws (c : ascii) : bool :=
  let n := nat_of_ascii c in (n =? 32)%nat || (n =? 9)%nat || (n =? 10)%nat || (n =? 13)%nat.

Fixpoint skip_ws (cs : list ascii) : list ascii :=
  match cs with
  | c :: r => if is_ws c then skip_ws r else cs
  | [] => []
  end.

Definition is_digit (c : ascii) : bool :=
  let n := nat_of_ascii c in (48 <=? n)%nat && (n <=? 57)%nat.

Definition hex_val (c : ascii) : option N :=
  let n := N_of_ascii c in
  if (48 <=? n)%N && (n <=? 57)%N then Some (n - 48)%N
  else if (97 <=? n)%N && (n <=? 102)%N then Some (n - 87)%N
  else if (65 <=? n)%N && (n <=? 70)%N then Some (n - 55)%N
  else None.

(** The value of four hexadecimal digits. *)
Definition hex4 (a b c d : ascii) : option N :=
  match hex_val a, hex_val b, hex_val c, hex_val d with
  | Some x1, Some x2, Some x3, Some x4 => Some (((x1 * 16 + x2) * 16 + x3) * 16 + x4)%N
  | _, _, _, _ => None
  end.

Definition is_high_surrogate (x : N) : bool := (55296 <=? x)%N && (x <? 56320)%N.
Definition is_low_surrogate (x : N) : bool := (56320 <=? x)%N && (x <? 57344)%N.

Fixpoint p_string (cs : list ascii) (acc : list ascii) : option (string * list ascii) :=
  match cs with
  | [] => None
  | "034"%char :: r => Some (string_of_list_ascii (rev acc), r)
  | "\"%char :: "u"%char :: a :: b :: c :: d :: r =>
      match hex4 a b c d with
      | Some x =>
          if is_high_surrogate x then
            match r with
            | "\"%char :: "u"%char :: a' :: b' :: c' :: d' :: r' =>
                match hex4 a' b' c' d' with
                | Some y =>
                    if is_low_surrogate y then
                      p_string r'
                        (rev (utf8_encode (65536 + (x - 55296) * 1024 + (y - 56320))%N) ++ acc)
                    else p_string r (rev (utf8_encode x) ++ acc)
                | None => p_string r (rev (utf8_encode x) ++ acc)
                end
            | _ => p_string r (rev (utf8_encode x) ++ acc)
            end
          else p_string r (rev (utf8_encode x) ++ acc)
      | None => None
      end
  | "\"%char :: e :: r =>
      let n := nat_of_ascii e in
      if (n =? 34)%nat || (n =? 92)%nat || (n =? 47)%nat then p_string r (e :: acc)
      else if (n =? 98)%nat then p_string r (ascii_of_nat 8 :: acc)
      else if (n =? 102)%nat then p_string r (ascii_of_nat 12 :: acc)
      else if (n =? 110)%nat then p_string r (ascii_of_nat 10 :: acc)
      else if (n =? 114)%nat then p_string r (ascii_of_nat 13 :: acc)
      else if (n =? 116)%nat then p_string r (ascii_of_nat 9 :: acc)
      else None
  | c :: r => if (nat_of_ascii c <? 32)%nat then None else p_string r (c :: acc)
  end.

Fixpoint p_digits (cs : list ascii) (acc : Z) : Z * list ascii :=
  match cs with
  | c :: r => if is_digit c then p_digits r (acc * 10 + Z.of_nat (nat_of_ascii c - 48))%Z
              else (acc, cs)
  | [] => (acc, [])
  end.

Definition p_unsigned (cs : list ascii) : option (Z * list ascii) :=
  match cs with
  | "0"%char :: r => Some (0%Z, r)
  | c :: _ => if is_digit c then Some (p_digits cs 0%Z) else None
  | [] => None
  end.

Definition p_number (cs : list ascii) : option (json * list ascii) :=
  let '(neg, cs') := match cs with "-"%char :: r => (true, r) | _ => (false, cs) end in
  match p_unsigned cs' with
  | Some (n, r) =>
      match r with
      | "."%char :: _ | "e"%char :: _ | "E"%char :: _ => None
      | _ => Some (JNum (if neg then Z.opp n else n), r)
      end
  | None => None
  end.

Fixpoint p_value (fuel : nat) (cs : list ascii) : option (json * list ascii) :=
  match fuel with
  | O => None
  | S f =>
      match skip_ws cs with
      | "n"%char :: "u"%char :: "l"%char :: "l"%char :: r => Some (JNull, r)
      | "t"%char :: "r"%char :: "u"%char :: "e"%char :: r => Some (JBool true, r)
      | "f"%char :: "a"%char :: "l"%char :: "s"%char :: "e"%char :: r => Some (JBool false, r)
      | "034"%char :: r =>
          match p_string r [] with Some (s, r') => Some (JStr s, r') | None => None end
      | "["%char :: r =>
          match skip_ws r with
          | "]"%char :: r' => Some (JArr [], r')
          | _ => p_elems f r []
          end
      | "{"%char :: r =>
          match skip_ws r with
          | "}"%char :: r' => Some (JObj [], r')
          | _ => p_members f r []
          end
      | cs' => p_number cs'
      end
  end
with p_elems (fuel : nat) (cs : list ascii) (acc : list json) : option (json * list ascii) :=
  match fuel with
  | O => None
  | S f =>
      match p_value f cs with
      | Some (v, r) =>
          match skip_ws r with
          | ","%char :: r' => p_elems f r' (v :: acc)
          | "]"%char :: r' => Some (JArr (rev (v :: acc)), r')
          | _ => None
          end
      | None => None
      end
  end
with p_members (fuel : nat) (cs : list ascii) (acc : list (string * json))
  : option (json * list ascii) :=
  match fuel with
  | O => None
  | S f =>
      match skip_ws cs with
      | "034"%char :: r =>
          match p_string r [] with
          | Some (k, r1) =>
              match skip_ws r1 with
              | ":"%char :: r2 =>
                  match p_value f r2 with
                  | Some (v, r3) =>
                      match skip_ws r3 with
                      | ","%char :: r4 => p_members f r4 ((k, v) :: acc)
                      | "}"%char :: r4 => Some (JObj (rev ((k, v) :: acc)), r4)
                      | _ => None
                      end
                  | None => None
                  end
              | _ => None
              end
          | None => None
          end
      | _ => None
      end
  end.

Definition json_loads (s : string) : option json :=
  let cs := list_ascii_of_string s in
  match p_value (2 * length cs + 2) cs with
  | Some (v, r) => match skip_ws r with [] => Some v | _ => None end
  | None => None
  end.

End JsonParse.

(** [base64.b64decode(s)] with [validate=False]: [s.encode('ascii')], then
    CPython's non-strict [binascii.a2b_base64]: characters outside the
    alphabet are skipped, decoding stops at complete padding, and a
    trailing incomplete quad is an error. *)
Module Base64.

Definition b64_val (c : ascii) : option nat :=
  let n := nat_of_ascii c in
  if (65 <=? n)%nat && (n <=? 90)%nat then Some (n - 65)
  else if (97 <=? n)%nat && (n <=? 122)%nat then Some (n - 71)
  else if (48 <=? n)%nat && (n <=? 57)%nat then Some (n + 4)
  else if (n =? 43)%nat then Some 62
  else if (n =? 47)%nat then Some 63
  else None.

Fixpoint a2b (cs : list ascii) (quad_pos leftchar pads : nat) (acc : list ascii)
  : option (list ascii) :=
  match cs with
  | [] => if (quad_pos =? 0)%nat then Some (rev acc) else None
  | c :: r =>
      if (nat_of_ascii c =? 61)%nat then
        if (2 <=? quad_pos)%nat then
          if (4 <=? quad_pos + S pads)%nat then Some (rev acc)
          else a2b r quad_pos leftchar (S pads) acc
        else a2b r quad_pos leftchar pads acc
      else
        match b64_val c with
        | None => a2b r quad_pos leftchar pads acc
        | Some v =>
            match quad_pos with
            | 0 => a2b r 1 v 0 acc
            | 1 => a2b r 2 (v mod 16) 0 (ascii_of_nat (leftchar * 4 + v / 16) :: acc)
            | 2 => a2b r 3 (v mod 4) 0 (ascii_of_nat ((leftchar mod 16) * 16 + v / 4) :: acc)
            | _ => a2b r 0 0 0 (ascii_of_nat ((leftchar mod 4) * 64 + v) :: acc)
            end
        end
  end.

Definition b64decode (s : string) : option string :=
  let cs := list_ascii_of_string s in
  if existsb (fun c => (127 <? nat_of_ascii c)%nat) cs then None
  else option_map string_of_list_ascii (a2b cs 0 0 0 []).

End Base64.

(** ** String helpers of the handlers *)

(** [s.split(",")]. *)
Fixpoint split_on_acc (sep : ascii) (cs : list ascii) (cur : list ascii) : list string :=
  match cs with
  | [] => [string_of_list_ascii (rev cur)]
  | c :: r =>
      if Ascii.eqb c sep then string_of_list_ascii (rev cur) :: split_on_acc sep r []
      else split_on_acc sep r (c :: cur)
  end.

Definition py_split (sep : ascii) (s : string) : list string :=
  split_on_acc sep (list_ascii_of_string s) [].

(** The code points [str.isspace] accepts (and [str.strip] removes):
    U+0009-U+000D, U+001C-U+0020, U+0085, U+00A0, U+1680, U+2000-U+200A,
    U+2028, U+2029, U+202F, U+205F, U+3000. *)
Definition py_isspace_cp (n : N) : bool :=
  ((9 <=? n)%N && (n <=? 13)%N) || ((28 <=? n)%N && (n <=? 32)%N)
  || (n =? 133)%N || (n =? 160)%N || (n =? 5760)%N
  || ((8192 <=? n)%N && (n <=? 8202)%N) || (n =? 8232)%N || (n =? 8233)%N
  || (n =? 8239)%N || (n =? 8287)%N || (n =? 12288)%N.

(** [c.isspace()] for one character [c]. *)
Definition py_isspace (g : list ascii) : bool :=
  match utf8_code g with Some n => py_isspace_cp n | None => false end.

Fixpoint lstrip_l (gs : list (list ascii)) : list (list ascii) :=
  match gs with
  | g :: r => if py_isspace g then lstrip_l r else gs
  | [] => []
  end.

(** [s.strip()]. *)
Definition py_strip (s : string) : string :=
  string_of_list_ascii
    (concat (rev (lstrip_l (rev (lstrip_l (utf8_chars (list_ascii_of_string s))))))).

(** [s[:n]], [n] characters. *)
Definition str_take (n : nat) (s : string) : string :=
  string_of_list_ascii (concat (firstn n (utf8_chars (list_ascii_of_string s)))).

(** [f"{x[:80]}"]: slicing works on strings and lists; on a dict the slice
    is looked up as a key and raises [KeyError] (Python 3.12 and later,
    where slices are hashable); other values are not subscriptable. *)
Definition py_slice80_str (x : json) : res string :=
  match x with
  | JStr s => Ret (str_take 80 s)
  | JArr l => Ret (py_str (JArr (firstn 80 l)))
  | JObj _ => Raise (KeyErrorOther "slice(None, 80, None)")
  | _ => Raise (TypeError (type_msg x "is not subscriptable"))
  end.

(** ** The normalized finding (the local variables of [lambda_handler]) *)

Record finding := mkFinding {
  title : json;
  severity : json;
  product : json;
  account : json;
  region : json;
  resource : json;
  description : json;
  console_url : json;
  created_at : json;
  types : json;
  threats : json;
  remediation : json
}.

Definition ALLOWED_SEVERITIES : list string := ["CRITICAL"; "HIGH"].

Definition SEVERITY_COLOR : list (string * string) :=
  [("CRITICAL", "#8B0000"); ("HIGH", "#FF0000"); ("MEDIUM", "#FFA500");
   ("LOW", "#FFFF00"); ("INFORMATIONAL", "#439FE0"); ("UNKNOWN", "#CCCCCC")].

(** [SEVERITY_COLOR.get(sev, SEVERITY_COLOR["UNKNOWN"])]. *)
Definition severity_color (sev : string) : string :=
  match find (fun kv => String.eqb (fst kv) sev) SEVERITY_COLOR with
  | Some (_, c) => c
  | None => "#CCCCCC"
  end.

Definition EMOJI_RED : string := "🔴".
Definition EMOJI_ORANGE : string := "🟠".

(** [str(severity).upper()]. *)
Definition normalized_sev (sev : json) : string := py_upper (py_str sev).

(** [normalized_sev in ALLOWED_SEVERITIES]. *)
Definition sev_allowed (s : string) : bool := existsb (String.eqb s) ALLOWED_SEVERITIES.

(** The outcomes a handler returns. *)
Inductive outcome : Type :=
| StatusOk
| StatusSuppressed (sev : json)
| StatusError (error : string).

(** ** Normalization: lines 49-136 of the email handler, 43-117 of the chat
    handler.  The two handlers run the same code except that only the email
    handler reads [Remediation]: [with_remediation] selects it. *)

(** Lines 53-61 (email): the defaults, with [account] and [region] read from
    the message. *)
Definition defaults (message : json) : res finding :=
  account <- py_get message "account" (JStr "Unknown");;
  region <- py_get message "region" (JStr "Unknown");;
  Ret {| title := JStr "Security Finding"; severity := JStr "UNKNOWN";
         product := JStr "Security Hub"; account := account; region := region;
         resource := JStr "Unknown"; description := JStr "";
         console_url := JStr "https://console.aws.amazon.com/securityhub/home";
         created_at := JNull; types := JArr []; threats := JArr [];
         remediation := JStr "" |}.

(** Lines 97-101 / 125-129 (email only). *)
Definition remediation_of (f : json) (dflt : json) : res json :=
  remediation_info <- py_get f "Remediation" (JObj []);;
  if py_truthy remediation_info then
    recommendation <- py_get remediation_info "Recommendation" (JObj []);;
    py_get recommendation "Text" (JStr "")
  else Ret dflt.

(** [f"{tags['Name']} ({resource})"] when [Name] is in the tags. *)
Definition name_tagged (r : json) (resource : json) : res json :=
  tags <- py_get r "Tags" (JObj []);;
  has_name <- py_contains "Name" tags;;
  if has_name then
    name <- py_getitem tags "Name";;
    Ret (JStr (py_str name ++ " (" ++ py_str resource ++ ")"))
  else Ret resource.

(** Lines 103-110: the loop over [resources], left at the first EC2
    instance. *)
Fixpoint ec2_resource (rs : list json) (resource : json) : res json :=
  match rs with
  | [] => Ret resource
  | r :: rest =>
      ty <- py_get r "type" JNull;;
      if py_eq_str ty "AWS::EC2::Instance" then
        uid <- py_get r "uid" resource;;
        name_tagged r uid
      else ec2_resource rest resource
  end.

(** Lines 131-136: the first of [Resources], whatever its type. *)
Definition classic_resource (resources : json) (resource : json) : res json :=
  if py_truthy resources then
    r0 <- py_getitem0 resources;;
    id <- py_get r0 "Id" resource;;
    name_tagged r0 id
  else Ret resource.

(** Lines 73-110: the OCSF / V2 branch. *)
Definition normalize_ocsf (with_remediation : bool) (f : json) (d : finding) : res finding :=
  title <- py_get f "title" (title d);;
  sev <- py_get f "severity" (severity d);;
  let severity := py_or sev (JStr "UNKNOWN") in
  created_at <- py_get f "created_time_dt" JNull;;
  finfo <- py_get f "finding_info" (JObj []);;
  description <- py_get finfo "desc" (JStr "");;
  cloud1 <- py_get f "cloud" (JObj []);;
  acc <- py_get cloud1 "account" (JObj []);;
  account <- py_get acc "uid" (account d);;
  cloud2 <- py_get f "cloud" (JObj []);;
  region <- py_get cloud2 "region" (region d);;
  meta <- py_get f "metadata" (JObj []);;
  prod <- py_get meta "product" (JObj []);;
  product <- py_get prod "name" (product d);;
  types <- py_get f "types" (JArr []);;
  threats <- py_get f "Threats" (JArr []);;
  remediation <- (if with_remediation then remediation_of f (remediation d)
                  else Ret (remediation d));;
  rs <- py_get f "resources" (JArr []);;
  rl <- py_iter rs;;
  resource <- ec2_resource rl (resource d);;
  Ret {| title := title; severity := severity; product := product; account := account;
         region := region; resource := resource; description := description;
         console_url := console_url d; created_at := created_at; types := types;
         threats := threats; remediation := remediation |}.

(** Lines 113-136: the classic ASFF branch. *)
Definition normalize_classic (with_remediation : bool) (f : json) (d : finding) : res finding :=
  title <- py_get f "Title" (title d);;
  description <- py_get f "Description" (JStr "");;
  sevobj <- py_get f "Severity" (JObj []);;
  label <- py_get sevobj "Label" (severity d);;
  let severity := py_or label (JStr "UNKNOWN") in
  product <- py_get f "ProductName" (product d);;
  account <- py_get f "AwsAccountId" (account d);;
  region <- py_get f "Region" (region d);;
  created_at <- py_get f "CreatedAt" JNull;;
  types <- py_get f "Types" (JArr []);;
  threats <- py_get f "Threats" (JArr []);;
  remediation <- (if with_remediation then remediation_of f (remediation d)
                  else Ret (remediation d));;
  resources <- py_get f "Resources" (JArr []);;
  resource <- classic_resource resources (resource d);;
  Ret {| title := title; severity := severity; product := product; account := account;
         region := region; resource := resource; description := description;
         console_url := console_url d; created_at := created_at; types := types;
         threats := threats; remediation := remediation |}.

(** Lines 49-136: the whole normalization. *)
Definition normalize (with_remediation : bool) (message : json) : res finding :=
  d <- defaults message;;
  has_detail <- py_contains "detail" message;;
  has_findings <- (if has_detail then
                     detail <- py_getitem message "detail";;
                     py_contains "findings" detail
                   else Ret false);;
  if has_findings then
    detail <- py_getitem message "detail";;
    findings <- py_getitem detail "findings";;
    f <- py_getitem0 findings;;
    url <- py_get f "SourceUrl" (console_url d);;
    let d := {| title := title d; severity := severity d; product := product d;
                account := account d; region := region d; resource := resource d;
                description := description d; console_url := url;
                created_at := created_at d; types := types d; threats := threats d;
                remediation := remediation d |} in
    is_ocsf <- py_contains "finding_info" f;;
    if is_ocsf then normalize_ocsf with_remediation f d
    else normalize_classic with_remediation f d
  else Ret d.

(** Lines 40-47: [event["Records"][0]["Sns"]] and [json.loads(sns["Message"])],
    with the parser [json_loads] as a parameter.  A text the parser rejects
    raises [json.JSONDecodeError], a [ValueError] whose message gives the
    position of the error; the parser here does not report the position, so
    the message is not modelled and ["Expecting value"] stands for it. *)
Definition unwrap (json_loads : string -> option json) (event : json) : res json :=
  records <- py_getitem event "Records";;
  r0 <- py_getitem0 records;;
  sns <- py_getitem r0 "Sns";;
  msg <- py_getitem sns "Message";;
  match msg with
  | JStr s =>
      match json_loads s with
      | Some m => Ret m
      | None => Raise (ValueError "Expecting value")
      end
  | _ => Raise (TypeError ("the JSON object must be str, bytes or bytearray, not "
                            ++ py_type_name msg))
  end.

(** ** The email handler *)
Module EmailHandler.

(** The process environment read at import time (lines 16-19). *)
Record config := mkConfig {
  FROM_EMAIL : option string;
  TO_EMAILS_env : string;  (* [os.environ.get("TO_EMAILS", "")] *)
  PROJECT_NAME : string;
  ENVIRONMENT : string
}.

Definition TO_EMAILS (cfg : config) : list string := py_split "," (TO_EMAILS_env cfg).

(** The arguments of [ses_client.send_email]. *)
Record ses_request := mkSesRequest {
  Source : string;
  ToAddresses : list string;
  Subject : string;
  TextBody : string;
  HtmlBody : string
}.

Section Email.

Variable cfg : config.
(** The SES client: [None] when the call returns, [Some msg] when it raises. *)
Variable ses_send : ses_request -> option string.

Definition block (cond : bool) (s : string) : string := if cond then s else "".

(** Lines 404-426. *)
Definition text_body (f : finding) (sev emoji : string) : string :=
  let P := PROJECT_NAME cfg in let E := ENVIRONMENT cfg in
  nl ++ "[" ++ P ++ " - " ++ E ++ "] " ++ emoji ++ " " ++ sev ++ " Security Finding" ++ nl
  ++ nl ++ "Title: " ++ py_str (title f) ++ nl ++ "Severity: " ++ sev
  ++ nl ++ "Source: " ++ py_str (product f) ++ nl ++ "Account: " ++ py_str (account f)
  ++ nl ++ "Region: " ++ py_str (region f) ++ nl ++ "Resource: " ++ py_str (resource f)
  ++ nl ++ nl ++ "Description:" ++ nl ++ py_str (description f) ++ nl ++ nl
  ++ block (py_truthy (remediation f)) ("Remediation:" ++ nl ++ py_str (remediation f) ++ nl)
  ++ nl ++ block (py_truthy (types f)) ("Types:" ++ nl ++ json_dumps (types f) ++ nl)
  ++ nl ++ block (py_truthy (threats f)) ("Threats:" ++ nl ++ json_dumps (threats f) ++ nl)
  ++ nl ++ nl ++ "Open in AWS Console: " ++ py_str (console_url f) ++ nl ++ nl ++ "---" ++ nl
  ++ "This is an automated security alert from " ++ P ++ " - " ++ E ++ "." ++ nl
  ++ "Only HIGH and CRITICAL severity findings are sent via email." ++ nl.

(** Lines 187-401, the interpolated parts of the HTML template in order; the
    fixed markup of the [<head>] and the template's indentation are left
    out ([color] is all the style sheet interpolates). *)
Definition html_body (f : finding) (sev emoji color : string) : string :=
  "<style>" ++ color ++ "</style>"
  ++ "<h1>" ++ emoji ++ " [" ++ PROJECT_NAME cfg ++ " - " ++ ENVIRONMENT cfg ++ "] "
  ++ sev ++ " Security Finding</h1>"
  ++ "<div class='severity-badge'>" ++ sev ++ " SEVERITY</div>"
  ++ "<h3>" ++ py_str (title f) ++ "</h3>"
  ++ "<div>Source</div><div>" ++ py_str (product f) ++ "</div>"
  ++ "<div>Account</div><div>" ++ py_str (account f) ++ "</div>"
  ++ "<div>Region</div><div>" ++ py_str (region f) ++ "</div>"
  ++ "<div>Resource</div><div>" ++ py_str (resource f) ++ "</div>"
  ++ block (py_truthy (created_at f))
       ("<div>Created At</div><div>" ++ py_str (created_at f) ++ "</div>")
  ++ "<div class='description'>"
  ++ py_str (py_or (description f) (JStr "No description provided.")) ++ "</div>"
  ++ block (py_truthy (remediation f))
       ("<h3>Recommended Action:</h3>" ++ py_str (remediation f))
  ++ block (py_truthy (types f)) ("<div class='code-block'>" ++ json_dumps (types f) ++ "</div>")
  ++ block (py_truthy (threats f)) ("<div class='code-block'>" ++ json_dumps (threats f) ++ "</div>")
  ++ "<a href='" ++ py_str (console_url f) ++ "'>Open in AWS Security Hub Console</a>".

(** [send_email] (lines 171-452), called with [severity=normalized_sev]; the
    list is the SES calls made. *)
Definition send_email (f : finding) (sev : string) : res unit * list ses_request :=
  match FROM_EMAIL cfg with
  | None | Some EmptyString => (Raise (Exception "FROM_EMAIL not set"), [])
  | Some from =>
      match TO_EMAILS cfg with
      | [] | EmptyString :: _ => (Raise (Exception "TO_EMAILS not set"), [])
      | _ =>
          let color := severity_color sev in
          let emoji := if String.eqb sev "CRITICAL" then EMOJI_RED else EMOJI_ORANGE in
          let html := html_body f sev emoji color in
          let text := text_body f sev emoji in
          match py_slice80_str (title f) with
          | Raise e => (Raise e, [])
          | Ret t80 =>
              let req := {| Source := from;
                            ToAddresses := map py_strip
                              (filter (fun e => negb (String.eqb (py_strip e) ""))
                                 (TO_EMAILS cfg));
                            Subject := "[" ++ PROJECT_NAME cfg ++ " - " ++ ENVIRONMENT cfg
                                       ++ "] " ++ emoji ++ " " ++ sev ++ ": " ++ t80;
                            TextBody := text; HtmlBody := html |} in
              (match ses_send req with
               | None => Ret tt
               | Some msg => Raise (Exception msg)
               end, [req])
          end
      end
  end.

(** [lambda_handler] (lines 34-168): the result, or the exception that
    leaves it, and the SES calls made. *)
Definition lambda_handler (json_loads : string -> option json) (event : json)
  : res outcome * list ses_request :=
  match unwrap json_loads event with
  | Raise e => (Ret (StatusError (exn_str e)), [])
  | Ret message =>
      match normalize true message with
      | Raise e => (Raise e, [])
      | Ret f =>
          let ns := normalized_sev (severity f) in
          if negb (sev_allowed ns) then (Ret (StatusSuppressed (severity f)), [])
          else
            let '(r, calls) := send_email f ns in
            match r with
            | Ret _ => (Ret StatusOk, calls)
            | Raise e => (Ret (StatusError (exn_str e)), calls)
            end
      end
  end.

End Email.
End EmailHandler.

(** ** The chat (Slack) handler *)
Module SlackHandler.

Record config := mkConfig {
  SLACK_WEBHOOK_URL : option string;
  PROJECT_NAME : string
}.

Section Slack.

Variable cfg : config.
(** The webhook POST through [urllib] ([Request] and [urlopen]) of
    [json.dumps(payload)]: [None] when it returns, [Some msg] when it
    raises. *)
Variable post : string -> json -> option string.

(** Lines 132-152. *)
Definition attachment_text (f : finding) (emoji : string) : string :=
  let t :=
    nl ++ "*[" ++ PROJECT_NAME cfg ++ "] " ++ emoji ++ " " ++ py_str (severity f)
    ++ " Security Finding*" ++ nl ++ nl
    ++ "*Title:* " ++ py_str (title f) ++ nl ++ "*Severity:* " ++ py_str (severity f) ++ nl
    ++ "*Source:* " ++ py_str (product f) ++ nl ++ "*Account:* " ++ py_str (account f) ++ nl
    ++ "*Region:* " ++ py_str (region f) ++ nl ++ "*Resource:* " ++ py_str (resource f) ++ nl
    ++ nl ++ "*Description:*" ++ nl ++ py_str (description f) ++ nl in
  let t := if py_truthy (types f)
           then t ++ nl ++ "*Types:*" ++ nl ++ "```" ++ json_dumps (types f) ++ "```" else t in
  let t := if py_truthy (threats f)
           then t ++ nl ++ "*Threats:*" ++ nl ++ "```" ++ json_dumps (threats f) ++ "```" else t in
  t ++ nl ++ "<" ++ py_str (console_url f) ++ "|Open in AWS Console>".

(** Lines 127-162. *)
Definition slack_payload (f : finding) (ns : string) : json :=
  let color := severity_color ns in
  let emoji := if String.eqb ns "CRITICAL" then EMOJI_RED else EMOJI_ORANGE in
  JObj [("attachments",
         JArr [JObj [("color", JStr color);
                     ("text", JStr (attachment_text f emoji));
                     ("footer", if py_truthy (created_at f)
                                then JStr ("CreatedAt: " ++ py_str (created_at f))
                                else JNull)]])].

(** [send_to_slack] (lines 175-187): the list is the webhook calls made. *)
Definition send_to_slack (payload : json) : res unit * list (string * json) :=
  match SLACK_WEBHOOK_URL cfg with
  | None | Some EmptyString => (Raise (Exception "SLACK_WEBHOOK_URL not set"), [])
  | Some url =>
      (match post url payload with
       | None => Ret tt
       | Some msg => Raise (Exception msg)
       end, [(url, payload)])
  end.

(** [lambda_handler] (lines 28-172). *)
Definition lambda_handler (json_loads : string -> option json) (event : json)
  : res outcome * list (string * json) :=
  match unwrap json_loads event with
  | Raise e => (Ret (StatusError (exn_str e)), [])
  | Ret message =>
      match normalize false message with
      | Raise e => (Raise e, [])
      | Ret f =>
          let ns := normalized_sev (severity f) in
          if negb (sev_allowed ns) then (Ret (StatusSuppressed (severity f)), [])
          else
            let '(r, calls) := send_to_slack (slack_payload f ns) in
            match r with
            | Ret _ => (Ret StatusOk, calls)
            | Raise e => (Ret (StatusError (exn_str e)), calls)
            end
      end
  end.

End Slack.
End SlackHandler.

(** ** The WAF log router *)
Module WafLogRouter.

(** [sanitize_log] (lines 10-18): [str(value)] with [\r], [\n] and [\t]
    replaced by spaces. *)
Definition sanitize_char (c : ascii) : ascii :=
  let n := nat_of_ascii c in
  if (n =? 13)%nat || (n =? 10)%nat || (n =? 9)%nat then " "%char else c.

Definition sanitize_log (value : json) : string :=
  string_of_list_ascii (map sanitize_char (list_ascii_of_string (py_str value))).

(** One entry of the output list; [log_type] is the partition key of an
    [Ok] entry, absent from a [ProcessingFailed] one. *)
Record out_record := mkOut {
  recordId : string;
  result : string;
  data : json;
  log_type : option string
}.

Section Router.

Variable b64decode : string -> option string.
Variable json_loads : string -> option json.

(** Lines 27-56: the [try] body.  Its exceptions are all caught by the
    [except] branch, which does not read them, so the messages of the
    decoding and parsing errors are stand-ins. *)
Definition decode_record (record : json) (record_id : string) : res out_record :=
  data <- py_getitem record "data";;
  payload <- (match data with
              | JStr s =>
                  match b64decode s with
                  | Some p => Ret p
                  | None => Raise (ValueError "Incorrect padding")
                  end
              | _ => Raise (TypeError ("argument should be a bytes-like object or ASCII string, not '"
                                       ++ py_type_name data ++ "'"))
              end);;
  waf_log <- (match json_loads payload with
              | Some v => Ret v
              | None => Raise (ValueError "Expecting value")
              end);;
  a <- py_get waf_log "action" (JStr "ALLOW");;
  up <- (match a with
         | JStr s => Ret (py_upper s)
         | _ => Raise (AttributeError (type_msg a "has no attribute 'upper'"))
         end);;
  let action := sanitize_log (JStr up) in
  let log_type := if String.eqb action "BLOCK" then "blocked" else "allowed" in
  Ret {| recordId := record_id; result := "Ok"; data := data; log_type := Some log_type |}.

(** Lines 26-71: one iteration of the loop; the [except] branch reads
    [record["data"]] again. *)
Definition process_record (record : json) : res out_record :=
  rid <- py_get record "recordId" (JStr "unknown");;
  let record_id := sanitize_log rid in
  match decode_record record record_id with
  | Ret o => Ret o
  | Raise _ =>
      data <- py_getitem record "data";;
      Ret {| recordId := record_id; result := "ProcessingFailed"; data := data;
             log_type := None |}
  end.

Fixpoint process_all (rs : list json) : res (list out_record) :=
  match rs with
  | [] => Ret []
  | r :: t =>
      o <- process_record r;;
      os <- process_all t;;
      Ret (o :: os)
  end.

(** [len(records)] (line 24), whose value is only logged: it raises on a
    value that has no length. *)
Definition check_len (x : json) : res unit :=
  match x with
  | JArr _ | JObj _ | JStr _ => Ret tt
  | _ => Raise (TypeError ("object of type '" ++ py_type_name x ++ "' has no len()"))
  end.

(** [lambda_handler] (lines 20-78): the list under ["records"]. *)
Definition lambda_handler (event : json) : res (list out_record) :=
  records <- py_get event "records" (JArr []);;
  _ <- check_len records;;
  rs <- py_iter records;;
  process_all rs.

End Router.
End WafLogRouter.

(** ** Concrete inputs *)
Module Inputs.

(** An SNS-delivered event whose message is the JSON text of [m]. *)
Definition event_of (m : json) : json :=
  JObj [("Records", JArr [JObj [("Sns", JObj [("Message", JStr (json_dumps m))])]])].

Definition msg_of_finding (f : json) : json :=
  JObj [("account", JStr "111122223333"); ("region", JStr "eu-west-1");
        ("detail", JObj [("findings", JArr [f])])].

Definition ocsf_finding (sev : string) (resources : list json) : json :=
  JObj [("finding_info", JObj [("desc", JStr "Port 22 open")]);
        ("title", JStr "SSH open to the world"); ("severity", JStr sev);
        ("resources", JArr resources)].

Definition classic_finding (sev : string) (resources : list json) : json :=
  JObj [("Title", JStr "SSH open to the world"); ("Severity", JObj [("Label", JStr sev)]);
        ("Resources", JArr resources)].

Definition ec2_named : json :=
  JObj [("type", JStr "AWS::EC2::Instance"); ("uid", JStr "i-123");
        ("Tags", JObj [("Name", JStr "web-1")])].

Definition classic_unnamed : json :=
  JObj [("Type", JStr "AwsEc2Instance"); ("Id", JStr "i-456")].

Definition s3_named : json :=
  JObj [("Type", JStr "AwsS3Bucket"); ("Id", JStr "bucket-1");
        ("Tags", JObj [("Name", JStr "logs")])].

Definition s3_ocsf : json :=
  JObj [("type", JStr "AWS::S3::Bucket"); ("uid", JStr "bucket-1")].

Definition msg_empty_findings : json := JObj [("detail", JObj [("findings", JArr [])])].

Definition email_cfg : EmailHandler.config :=
  EmailHandler.mkConfig (Some "alerts@example.com") "ops@example.com" "AWS" "prod".

Definition email_cfg_to (to : string) : EmailHandler.config :=
  EmailHandler.mkConfig (Some "alerts@example.com") to "AWS" "prod".

(** U+00A0 (no-break space) in UTF-8, and a recipient list that uses it
    around the entries. *)
Definition nbsp : string := String (ascii_of_nat 194) (String (ascii_of_nat 160) EmptyString).
Definition to_with_nbsp : string :=
  "ops@example.com" ++ nbsp ++ "," ++ nbsp ++ " dev@example.com ," ++ nbsp.

Definition ses_accept (_ : EmailHandler.ses_request) : option string := None.

(** SES refuses a request with no destination address. *)
Definition ses_needs_recipient (r : EmailHandler.ses_request) : option string :=
  match EmailHandler.ToAddresses r with
  | [] => Some "Missing final '@domain'"
  | _ => None
  end.

Definition slack_cfg : SlackHandler.config :=
  SlackHandler.mkConfig (Some "https://hooks.slack.com/services/T0/B0/X0") "AWS".

Definition post_accept (_ : string) (_ : json) : option string := None.

(** The first attachment's field [k] of a chat payload. *)
Definition attachment_field (p : json) (k : string) : option json :=
  match p with
  | JObj kvs =>
      match assoc_last kvs "attachments" with
      | Some (JArr (JObj a :: _)) => assoc_last a k
      | _ => None
      end
  | _ => None
  end.

(** A Firehose record. *)
Definition fh_record (rid data : string) : json :=
  JObj [("recordId", JStr rid); ("data", JStr data)].

Definition fh_event (rs : list json) : json := JObj [("records", JArr rs)].

(** [base64] of the JSON texts [{"action":"BLOCK"}] and [{"action":"block"}]. *)
Definition b64_action_BLOCK : string := "eyJhY3Rpb24iOiJCTE9DSyJ9".
Definition b64_action_block : string := "eyJhY3Rpb24iOiJibG9jayJ9".

End Inputs.

(** ** Predicates on resource entries *)

(** The value [r.get("type")] of an entry. *)
Definition entry_type (kvs : list (string * json)) : json :=
  match assoc_last kvs "type" with Some v => v | None => JNull end.

(** An entry that the structured-variant loop takes: an object whose [type]
    is [AWS::EC2::Instance]. *)
Definition is_ec2_entry (r : json) : Prop :=
  exists kvs, r = JObj kvs /\ py_eq_str (entry_type kvs) "AWS::EC2::Instance" = true.

(** An entry that the loop passes over. *)
Definition skipped_entry (r : json) : Prop :=
  exists kvs, r = JObj kvs /\ py_eq_str (entry_type kvs) "AWS::EC2::Instance" = false.

(** The chat handler's view of a normalized finding: the same fields with
    [remediation] left at its default, since that handler never reads
    [Remediation]. *)
Definition drop_remediation (f : finding) : finding :=
  {| title := title f; severity := severity f; product := product f;
     account := account f; region := region f; resource := resource f;
     description := description f; console_url := console_url f;
     created_at := created_at f; types := types f; threats := threats f;
     remediation := JStr "" |}.

(** A string with none of the characters [\r], [\n], [\t]. *)
Definition no_line_breaks (s : string) : Prop :=
  forall c, In c (list_ascii_of_string s) ->
    nat_of_ascii c <> 13 /\ nat_of_ascii c <> 10 /\ nat_of_ascii c <> 9.

(** * Properties *)

Import Inputs.

Lemma bind_Ret_inv {A B} (m : res A) (k : A -> res B) (b : B) :
  bind m k = Ret b -> exists a, m = Ret a /\ k a = Ret b.
Proof. destruct m as [a|e]; simpl; [eauto | discriminate]. Qed.

Ltac bind_inv H :=
  repeat match type of H with
  | bind ?m ?k = Ret _ =>
      let a := fresh "v" in let Ha := fresh "Hm" in
      apply bind_Ret_inv in H; destruct H as [a [Ha H]]
  end.

Lemma sev_allowed_In (s : string) : sev_allowed s = true <-> In s ALLOWED_SEVERITIES.
Proof.
  unfold sev_allowed. rewrite existsb_exists. split.
  - intros [x [Hx Heq]]. apply String.eqb_eq in Heq. subst. exact Hx.
  - intros H. exists s. split; [exact H | apply String.eqb_refl].
Qed.

Lemma sev_allowed_false (s : string) : ~ In s ALLOWED_SEVERITIES -> sev_allowed s = false.
Proof.
  intros H. destruct (sev_allowed s) eqn:E; [|reflexivity].
  exfalso. apply H. apply sev_allowed_In. exact E.
Qed.

(** C1 (code defect): a message whose [detail.findings] array is present
    but empty makes [message["detail"]["findings"][0]] raise [IndexError]
    outside both [try] blocks, in the email and in the chat handler, before
    any transport call; the handler returns no structured outcome. *)
Theorem C1_empty_findings_raises :
  forall (ecfg : EmailHandler.config) ses (scfg : SlackHandler.config) post,
    EmailHandler.lambda_handler ecfg ses JsonParse.json_loads (event_of msg_empty_findings)
      = (Raise IndexError, [])
    /\ SlackHandler.lambda_handler scfg post JsonParse.json_loads (event_of msg_empty_findings)
      = (Raise IndexError, []).
Proof. intros. split; reflexivity. Qed.

(** C2: once the message is unwrapped and normalized, a finding whose
    severity, upper-cased, is not CRITICAL or HIGH makes both handlers return
    [suppressed] with the severity as normalization left it (not upper-cased),
    with no call to the mail or chat transport. *)
Theorem C2_suppressed_without_transport :
  forall json_loads event message,
    unwrap json_loads event = Ret message ->
    (forall f, normalize true message = Ret f ->
       ~ In (normalized_sev (severity f)) ALLOWED_SEVERITIES ->
       forall cfg ses,
         EmailHandler.lambda_handler cfg ses json_loads event
           = (Ret (StatusSuppressed (severity f)), []))
    /\
    (forall f, normalize false message = Ret f ->
       ~ In (normalized_sev (severity f)) ALLOWED_SEVERITIES ->
       forall cfg post,
         SlackHandler.lambda_handler cfg post json_loads event
           = (Ret (StatusSuppressed (severity f)), [])).
Proof.
  intros json_loads event message Hu. split.
  - intros f Hn Hs cfg ses. unfold EmailHandler.lambda_handler.
    rewrite Hu, Hn, (sev_allowed_false _ Hs). reflexivity.
  - intros f Hn Hs cfg post. unfold SlackHandler.lambda_handler.
    rewrite Hu, Hn, (sev_allowed_false _ Hs). reflexivity.
Qed.

Lemma C2_witness :
  let m := msg_of_finding (ocsf_finding "Medium" [ec2_named]) in
  unwrap JsonParse.json_loads (event_of m) = Ret m /\
  EmailHandler.lambda_handler email_cfg ses_accept JsonParse.json_loads (event_of m)
    = (Ret (StatusSuppressed (JStr "Medium")), []) /\
  SlackHandler.lambda_handler slack_cfg post_accept JsonParse.json_loads (event_of m)
    = (Ret (StatusSuppressed (JStr "Medium")), []).
Proof.
  intros m.
  assert (Hu : unwrap JsonParse.json_loads (event_of m) = Ret m) by reflexivity.
  destruct (C2_suppressed_without_transport JsonParse.json_loads (event_of m) m Hu) as [He Hs].
  split; [exact Hu | split].
  - refine (He _ eq_refl _ _ _). simpl. intuition discriminate.
  - refine (Hs _ eq_refl _ _ _). simpl. intuition discriminate.
Defined.

(** The severity test upper-cases beyond ASCII as [str.upper] does: a
    severity spelled with a dotless i (U+0131) normalizes to HIGH, and the
    finding is delivered rather than suppressed. *)
Lemma dotless_i_severity_alerts :
  let sev := "h" ++ String (ascii_of_nat 196) (String (ascii_of_nat 177) "gh") in
  let m := msg_of_finding (ocsf_finding sev [ec2_named]) in
  normalized_sev (JStr sev) = "HIGH" /\
  fst (EmailHandler.lambda_handler email_cfg ses_accept JsonParse.json_loads (event_of m))
    = Ret StatusOk /\
  length (snd (EmailHandler.lambda_handler email_cfg ses_accept JsonParse.json_loads
                 (event_of m))) = 1.
Proof. vm_compute. repeat split. Qed.

(** Delivery of an alert-worthy finding by the chat handler: with a webhook
    URL and a transport that returns, the outcome is [ok] after exactly one
    webhook call, carrying [slack_payload]. *)
Lemma slack_ok_one_call :
  forall json_loads event message f cfg post url,
    unwrap json_loads event = Ret message ->
    normalize false message = Ret f ->
    In (normalized_sev (severity f)) ALLOWED_SEVERITIES ->
    SlackHandler.SLACK_WEBHOOK_URL cfg = Some url -> url <> "" ->
    (forall u p, post u p = None) ->
    SlackHandler.lambda_handler cfg post json_loads event
      = (Ret StatusOk,
         [(url, SlackHandler.slack_payload cfg f (normalized_sev (severity f)))]).
Proof.
  intros json_loads event message f cfg post url Hu Hn Hs Hurl Hne Hp.
  apply sev_allowed_In in Hs.
  unfold SlackHandler.lambda_handler. rewrite Hu, Hn, Hs. simpl.
  unfold SlackHandler.send_to_slack. rewrite Hurl, Hp.
  destruct url; [congruence | reflexivity].
Qed.

(** Delivery by the email handler: with [FROM_EMAIL] set, a first
    comma-separated [TO_EMAILS] entry that is not empty, a string title and
    an SES client that returns, the outcome is [ok] after exactly one SES
    call. *)
Lemma email_ok_one_call :
  forall json_loads event message f cfg ses from t0 rest t,
    unwrap json_loads event = Ret message ->
    normalize true message = Ret f ->
    In (normalized_sev (severity f)) ALLOWED_SEVERITIES ->
    EmailHandler.FROM_EMAIL cfg = Some from -> from <> "" ->
    EmailHandler.TO_EMAILS cfg = t0 :: rest -> t0 <> "" ->
    title f = JStr t ->
    (forall r, ses r = None) ->
    exists req, EmailHandler.lambda_handler cfg ses json_loads event = (Ret StatusOk, [req]).
Proof.
  intros json_loads event message f cfg ses from t0 rest t Hu Hn Hs Hf Hfne Ht Ht0 Htl Hses.
  apply sev_allowed_In in Hs.
  unfold EmailHandler.lambda_handler. rewrite Hu, Hn, Hs. simpl.
  unfold EmailHandler.send_email. rewrite Hf, Ht, Htl. simpl.
  destruct from; [congruence|]. destruct t0; [congruence|].
  rewrite Hses. eexists. reflexivity.
Qed.

(** C3 (code defect): the email handler's recipient check reads only the
    first comma-separated entry of [TO_EMAILS], so with sender
    [alerts@example.com], [TO_EMAILS=",ops@example.com"] (one recipient) and
    an SES client that accepts everything, a HIGH finding gets [error]
    ("TO_EMAILS not set") and no SES call, while the same finding with
    [TO_EMAILS="ops@example.com"] is delivered with one call.  A finding
    whose title is a number also ends in [error] with no call: [title[:80]]
    raises. *)
Theorem C3_recipient_check_first_entry :
  let m := msg_of_finding (ocsf_finding "HIGH" [ec2_named]) in
  EmailHandler.lambda_handler (email_cfg_to ",ops@example.com") ses_accept
      JsonParse.json_loads (event_of m)
    = (Ret (StatusError "TO_EMAILS not set"), [])
  /\ length (snd (EmailHandler.lambda_handler email_cfg ses_accept
                    JsonParse.json_loads (event_of m))) = 1
  /\ fst (EmailHandler.lambda_handler email_cfg ses_accept JsonParse.json_loads (event_of m))
     = Ret StatusOk
  /\ EmailHandler.lambda_handler email_cfg ses_accept JsonParse.json_loads
       (event_of (msg_of_finding
          (JObj [("finding_info", JObj []); ("title", JNum 5); ("severity", JStr "HIGH")])))
     = (Ret (StatusError "'int' object is not subscriptable"), []).
Proof. vm_compute. repeat split. Qed.

(** C4 (code defect): with [TO_EMAILS=" "] no recipient is configured (the
    handler's own list [[e.strip() for e in TO_EMAILS if e.strip()]] is
    empty), yet the check [not TO_EMAILS[0]] passes and the SES call is made
    with an empty destination list; the [error] outcome comes from the
    transport, after the call. *)
Theorem C4_blank_recipient_reaches_transport :
  let m := msg_of_finding (ocsf_finding "HIGH" [ec2_named]) in
  match EmailHandler.lambda_handler (email_cfg_to " ") ses_needs_recipient
          JsonParse.json_loads (event_of m) with
  | (Ret (StatusError _), [req]) => EmailHandler.ToAddresses req = []
  | _ => False
  end.
Proof. vm_compute. reflexivity. Qed.

(** What the configuration checks do catch: no sender, an empty
    [TO_EMAILS], or no webhook URL give [error] before any transport call. *)
Lemma config_missing_no_call :
  forall json_loads event message,
    unwrap json_loads event = Ret message ->
    (forall f cfg ses, normalize true message = Ret f ->
       In (normalized_sev (severity f)) ALLOWED_SEVERITIES ->
       (EmailHandler.FROM_EMAIL cfg = None \/ EmailHandler.FROM_EMAIL cfg = Some "" \/
        (exists from, EmailHandler.FROM_EMAIL cfg = Some from /\ from <> "" /\
                      EmailHandler.TO_EMAILS_env cfg = "")) ->
       exists msg, EmailHandler.lambda_handler cfg ses json_loads event
                   = (Ret (StatusError msg), []))
    /\
    (forall f cfg post, normalize false message = Ret f ->
       In (normalized_sev (severity f)) ALLOWED_SEVERITIES ->
       (SlackHandler.SLACK_WEBHOOK_URL cfg = None \/ SlackHandler.SLACK_WEBHOOK_URL cfg = Some "") ->
       SlackHandler.lambda_handler cfg post json_loads event
         = (Ret (StatusError "SLACK_WEBHOOK_URL not set"), [])).
Proof.
  intros json_loads event message Hu. split.
  - intros f cfg ses Hn Hs Hc. apply sev_allowed_In in Hs.
    unfold EmailHandler.lambda_handler. rewrite Hu, Hn, Hs. simpl.
    unfold EmailHandler.send_email, EmailHandler.TO_EMAILS.
    destruct Hc as [H|[H|[from [H1 [H2 H3]]]]].
    + rewrite H. eauto.
    + rewrite H. eauto.
    + rewrite H1, H3. destruct from; [congruence|]. simpl. eauto.
  - intros f cfg post Hn Hs Hc. apply sev_allowed_In in Hs.
    unfold SlackHandler.lambda_handler. rewrite Hu, Hn, Hs. simpl.
    unfold SlackHandler.send_to_slack.
    destruct Hc as [H|H]; rewrite H; reflexivity.
Qed.

(** C5, as the code has it: every webhook call of the chat handler carries
    [{"attachments": [{"color": <string>, "text": <string>, "footer": F}]}]
    where F is ["CreatedAt: <created_at>"] when the normalized creation
    timestamp is truthy, and JSON [null] otherwise: the [footer] key is
    always present. *)
Theorem C5_chat_payload_shape :
  forall cfg post json_loads event url p,
    In (url, p) (snd (SlackHandler.lambda_handler cfg post json_loads event)) ->
    exists message f color text,
      unwrap json_loads event = Ret message /\ normalize false message = Ret f /\
      p = JObj [("attachments",
                 JArr [JObj [("color", JStr color); ("text", JStr text);
                             ("footer", if py_truthy (created_at f)
                                        then JStr ("CreatedAt: " ++ py_str (created_at f))
                                        else JNull)]])].
Proof.
  intros cfg post json_loads event url p H.
  unfold SlackHandler.lambda_handler in H.
  destruct (unwrap json_loads event) as [message|e] eqn:Hu; [|contradiction].
  destruct (normalize false message) as [f|e] eqn:Hn; [|contradiction].
  destruct (negb (sev_allowed (normalized_sev (severity f)))); [contradiction|].
  unfold SlackHandler.send_to_slack in H.
  destruct (SlackHandler.SLACK_WEBHOOK_URL cfg) as [u|]; [|contradiction].
  destruct u as [|c u];
    [contradiction|].
  destruct (post (String c u) _); simpl in H;
    (destruct H as [H|[]]; inversion H; subst;
     exists message, f; eexists; eexists; repeat split; first [reflexivity | assumption]).
Qed.

Lemma C5_witness :
  let m := msg_of_finding (ocsf_finding "CRITICAL" [ec2_named]) in
  exists url p,
    In (url, p) (snd (SlackHandler.lambda_handler slack_cfg post_accept JsonParse.json_loads (event_of m)))
    /\ exists message f color text,
      unwrap JsonParse.json_loads (event_of m) = Ret message /\ normalize false message = Ret f /\
      p = JObj [("attachments",
                 JArr [JObj [("color", JStr color); ("text", JStr text);
                             ("footer", if py_truthy (created_at f)
                                        then JStr ("CreatedAt: " ++ py_str (created_at f))
                                        else JNull)]])].
Proof.
  intros m.
  pose (calls := snd (SlackHandler.lambda_handler slack_cfg post_accept JsonParse.json_loads (event_of m))).
  assert (Hc : exists url p, calls = [(url, p)]) by (vm_compute; eauto).
  destruct Hc as [url [p Hc]].
  exists url, p.
  assert (Hin : In (url, p) calls) by (rewrite Hc; left; reflexivity).
  split; [exact Hin|].
  exact (C5_chat_payload_shape slack_cfg post_accept JsonParse.json_loads (event_of m) url p Hin).
Defined.

(** C5 as stated fails: a finding with no creation timestamp gets a payload
    whose attachment has the key [footer] with value [null]. *)
Lemma C5_footer_present_as_null :
  let m := msg_of_finding (ocsf_finding "HIGH" [ec2_named]) in
  match snd (SlackHandler.lambda_handler slack_cfg post_accept JsonParse.json_loads (event_of m)) with
  | [(_, p)] => attachment_field p "footer" = Some JNull
  | _ => False
  end.
Proof. vm_compute. reflexivity. Qed.

Section RouterFacts.

Variable b64decode : string -> option string.
Variable json_loads : string -> option json.

Lemma decode_record_ok (r : json) (rid : string) (o : WafLogRouter.out_record) :
  WafLogRouter.decode_record b64decode json_loads r rid = Ret o ->
  WafLogRouter.result o = "Ok" /\ WafLogRouter.recordId o = rid /\
  py_getitem r "data" = Ret (WafLogRouter.data o).
Proof.
  unfold WafLogRouter.decode_record. intros H. bind_inv H.
  inversion H; subst; simpl. auto.
Qed.

(** One record that is an object carrying [data]: it yields one entry with
    the sanitized [recordId] and the same [data]; the entry is [Ok] when the
    [try] body returns and [ProcessingFailed] when it raises. *)
Lemma process_record_obj (kvs : list (string * json)) (d : json) :
  assoc_last kvs "data" = Some d ->
  let rid := match assoc_last kvs "recordId" with Some v => v | None => JStr "unknown" end in
  exists o,
    WafLogRouter.process_record b64decode json_loads (JObj kvs) = Ret o /\
    WafLogRouter.recordId o = WafLogRouter.sanitize_log rid /\
    WafLogRouter.data o = d /\
    (WafLogRouter.result o = "Ok" \/ WafLogRouter.result o = "ProcessingFailed") /\
    (WafLogRouter.result o = "ProcessingFailed" <->
     exists e, WafLogRouter.decode_record b64decode json_loads (JObj kvs)
                 (WafLogRouter.sanitize_log rid) = Raise e).
Proof.
  intros Hd rid. unfold WafLogRouter.process_record. simpl. fold rid.
  destruct (WafLogRouter.decode_record b64decode json_loads (JObj kvs)
              (WafLogRouter.sanitize_log rid)) as [o|e] eqn:Hdec.
  - apply decode_record_ok in Hdec as [Hr [Hid Hdata]].
    simpl in Hdata. rewrite Hd in Hdata. inversion Hdata.
    exists o. repeat split; auto.
    + rewrite Hr. discriminate.
    + intros [e He]. discriminate.
  - simpl. rewrite Hd. simpl. eexists. repeat split; eauto.
Qed.

End RouterFacts.

(** C6, as the code has it: for a batch whose records are objects that each
    carry [data], the router returns one entry per record, in order; each
    entry's [recordId] is [sanitize_log] of the record's [recordId] (the
    value as a string with [\r], [\n], [\t] replaced by spaces, ["unknown"]
    when absent), its [data] is the record's [data] unchanged, and it is
    [ProcessingFailed] exactly when decoding or parsing that record raised,
    the other records being processed all the same. *)
Theorem C6_router_batch :
  forall b64decode json_loads event rs,
    py_get event "records" (JArr []) = Ret (JArr rs) ->
    Forall (fun r => exists kvs d, r = JObj kvs /\ assoc_last kvs "data" = Some d) rs ->
    exists os,
      WafLogRouter.lambda_handler b64decode json_loads event = Ret os /\
      length os = length rs /\
      Forall2 (fun r o =>
        exists rid,
          py_get r "recordId" (JStr "unknown") = Ret rid /\
          WafLogRouter.recordId o = WafLogRouter.sanitize_log rid /\
          py_getitem r "data" = Ret (WafLogRouter.data o) /\
          (WafLogRouter.result o = "Ok" \/ WafLogRouter.result o = "ProcessingFailed") /\
          (WafLogRouter.result o = "ProcessingFailed" <->
           exists e, WafLogRouter.decode_record b64decode json_loads r
                       (WafLogRouter.sanitize_log rid) = Raise e)) rs os.
Proof.
  intros b64decode json_loads event rs He Hall.
  unfold WafLogRouter.lambda_handler. rewrite He. simpl.
  clear He.
  assert (Hp : exists os, WafLogRouter.process_all b64decode json_loads rs = Ret os /\
    Forall2 (fun r o =>
        exists rid,
          py_get r "recordId" (JStr "unknown") = Ret rid /\
          WafLogRouter.recordId o = WafLogRouter.sanitize_log rid /\
          py_getitem r "data" = Ret (WafLogRouter.data o) /\
          (WafLogRouter.result o = "Ok" \/ WafLogRouter.result o = "ProcessingFailed") /\
          (WafLogRouter.result o = "ProcessingFailed" <->
           exists e, WafLogRouter.decode_record b64decode json_loads r
                       (WafLogRouter.sanitize_log rid) = Raise e)) rs os).
  { induction rs as [|r rs IH].
    - exists []. split; [reflexivity | constructor].
    - inversion Hall as [|r' rs' Hr Hrs]; subst.
      destruct Hr as [kvs [d [-> Hd]]].
      destruct (IH Hrs) as [os [Hos HF]].
      destruct (process_record_obj b64decode json_loads kvs d Hd)
        as [o [Ho [Hid [Hdata [Hres Hfail]]]]].
      exists (o :: os). split.
      + simpl. rewrite Ho. simpl. rewrite Hos. reflexivity.
      + constructor; [|exact HF].
        eexists. split; [reflexivity|]. simpl. rewrite Hd.
        repeat split; auto; [rewrite Hdata; reflexivity | apply Hfail | apply Hfail]. }
  destruct Hp as [os [Hos HF]]. exists os. split; [exact Hos|].
  split; [symmetry; eapply Forall2_length; exact HF | exact HF].
Qed.

Lemma C6_witness :
  let ev := fh_event [fh_record "r1" b64_action_BLOCK; fh_record "r2" "not base64!"] in
  exists os,
    WafLogRouter.lambda_handler Base64.b64decode JsonParse.json_loads ev = Ret os /\
    length os = 2 /\
    Forall2 (fun r o =>
        exists rid,
          py_get r "recordId" (JStr "unknown") = Ret rid /\
          WafLogRouter.recordId o = WafLogRouter.sanitize_log rid /\
          py_getitem r "data" = Ret (WafLogRouter.data o) /\
          (WafLogRouter.result o = "Ok" \/ WafLogRouter.result o = "ProcessingFailed") /\
          (WafLogRouter.result o = "ProcessingFailed" <->
           exists e, WafLogRouter.decode_record Base64.b64decode JsonParse.json_loads r
                       (WafLogRouter.sanitize_log rid) = Raise e))
      [fh_record "r1" b64_action_BLOCK; fh_record "r2" "not base64!"] os.
Proof.
  intros ev.
  refine (C6_router_batch Base64.b64decode JsonParse.json_loads ev _ eq_refl _).
  repeat constructor; eexists; eexists; split; reflexivity.
Defined.

(** C6 as stated fails: a [recordId] holding a newline comes back with a
    space in its place. *)
Lemma C6_recordId_not_preserved :
  WafLogRouter.lambda_handler Base64.b64decode JsonParse.json_loads
    (fh_event [fh_record ("r" ++ nl ++ "1") b64_action_BLOCK])
  = Ret [WafLogRouter.mkOut "r 1" "Ok" (JStr b64_action_BLOCK) (Some "blocked")]
  /\ "r 1" <> "r" ++ nl ++ "1".
Proof. split; [vm_compute; reflexivity | discriminate]. Qed.

Lemma sanitize_char_keeps (c d : ascii) :
  WafLogRouter.sanitize_char c = d -> d <> " "%char -> c = d.
Proof.
  unfold WafLogRouter.sanitize_char.
  destruct (_ || _ || _); intros H Hd; [subst; congruence | exact H].
Qed.

(** [sanitize_log] only introduces spaces: a result with no space is the
    input itself. *)
Lemma sanitize_log_no_space (x y : string) :
  (forall c, In c (list_ascii_of_string y) -> c <> " "%char) ->
  WafLogRouter.sanitize_log (JStr x) = y -> x = y.
Proof.
  unfold WafLogRouter.sanitize_log. simpl.
  revert y. induction x as [|c x IH]; intros y Hy H; subst y; [reflexivity|].
  simpl in *. f_equal.
  - apply sanitize_char_keeps; [reflexivity | apply Hy; left; reflexivity].
  - apply IH; [|reflexivity]. intros c' Hc'. apply Hy. right. exact Hc'.
Qed.

Lemma sanitize_action_BLOCK (up : string) :
  String.eqb (WafLogRouter.sanitize_log (JStr up)) "BLOCK" = String.eqb up "BLOCK".
Proof.
  destruct (String.eqb up "BLOCK") eqn:E.
  - apply String.eqb_eq in E. subst. reflexivity.
  - destruct (String.eqb (WafLogRouter.sanitize_log (JStr up)) "BLOCK") eqn:E2; [|reflexivity].
    apply String.eqb_eq in E2. apply sanitize_log_no_space in E2.
    + subst. rewrite String.eqb_refl in E. discriminate.
    + intros c Hc. simpl in Hc.
      repeat (destruct Hc as [<-|Hc]; [discriminate|]). destruct Hc.
Qed.

(** C7, as the code has it: for a record (an object) whose [data] string
    decodes and parses to a value [waf], the partition is decided on the
    upper-cased action: if [waf] is an object whose [action] is absent, the
    entry is [Ok] with partition [allowed]; if [action] is a string [a], the
    entry is [Ok] with partition [blocked] exactly when [a.upper()] is
    [BLOCK] (so ["block"] too) and [allowed] otherwise; if [action] is not a
    string, or [waf] is not an object, the entry is [ProcessingFailed] with
    no partition. *)
Theorem C7_partition_key :
  forall b64decode json_loads kvs s payload waf,
    assoc_last kvs "data" = Some (JStr s) ->
    b64decode s = Some payload ->
    json_loads payload = Some waf ->
    exists o,
      WafLogRouter.process_record b64decode json_loads (JObj kvs) = Ret o /\
      match waf with
      | JObj wkvs =>
          match assoc_last wkvs "action" with
          | None => WafLogRouter.result o = "Ok" /\ WafLogRouter.log_type o = Some "allowed"
          | Some (JStr a) =>
              WafLogRouter.result o = "Ok" /\
              WafLogRouter.log_type o =
                Some (if String.eqb (py_upper a) "BLOCK" then "blocked" else "allowed")
          | Some _ =>
              WafLogRouter.result o = "ProcessingFailed" /\ WafLogRouter.log_type o = None
          end
      | _ => WafLogRouter.result o = "ProcessingFailed" /\ WafLogRouter.log_type o = None
      end.
Proof.
  intros b64decode json_loads kvs s payload waf Hd Hb Hl.
  unfold WafLogRouter.process_record, WafLogRouter.decode_record. simpl.
  rewrite Hd. simpl. rewrite Hb. simpl. rewrite Hl. simpl.
  destruct waf as [| | | | |wkvs]; simpl;
    [ .. | destruct (assoc_last wkvs "action") as [a|]; [destruct a|] ];
    simpl; eexists; (split; [reflexivity|]); simpl;
    try rewrite sanitize_action_BLOCK; auto.
Qed.

Lemma C7_witness :
  exists o,
    WafLogRouter.process_record Base64.b64decode JsonParse.json_loads
      (fh_record "r1" b64_action_block) = Ret o /\
    WafLogRouter.result o = "Ok" /\ WafLogRouter.log_type o = Some "blocked".
Proof.
  destruct (C7_partition_key Base64.b64decode JsonParse.json_loads
              [("recordId", JStr "r1"); ("data", JStr b64_action_block)]
              b64_action_block _ _ eq_refl eq_refl eq_refl) as [o [Ho Hp]].
  exists o. split; [exact Ho|]. vm_compute in Hp. exact Hp.
Defined.

(** C7 as stated fails: the action ["block"] (not the string ["BLOCK"])
    gets partition [blocked]. *)
Lemma C7_lowercase_block_is_blocked :
  WafLogRouter.lambda_handler Base64.b64decode JsonParse.json_loads
    (fh_event [fh_record "r1" b64_action_block])
  = Ret [WafLogRouter.mkOut "r1" "Ok" (JStr b64_action_block) (Some "blocked")].
Proof. vm_compute. reflexivity. Qed.

(** The structured-variant loop returns its starting value when no entry is
    an EC2 instance. *)
Lemma ec2_resource_no_match (rl : list json) (d x : json) :
  ec2_resource rl d = Ret x -> ~ (exists r, In r rl /\ is_ec2_entry r) -> x = d.
Proof.
  induction rl as [|r rl IH]; simpl; intros H Hno.
  - inversion H. reflexivity.
  - bind_inv H. destruct r as [| | | | |kvs]; simpl in Hm; try discriminate.
    inversion Hm; subst v.
    destruct (py_eq_str _ "AWS::EC2::Instance") eqn:E.
    + exfalso. apply Hno. exists (JObj kvs). split; [left; reflexivity|].
      exists kvs. split; [reflexivity | exact E].
    + apply IH; [exact H|]. intros [r' [Hin Hr']]. apply Hno. exists r'. split; [right; exact Hin | exact Hr'].
Qed.

(** Where the structured-variant normalization takes [resource] from: the
    loop over [resources], started at ["Unknown"]. *)
Lemma normalize_ocsf_resource (b : bool) mk dk fk rest fi rl nf :
  assoc_last mk "detail" = Some (JObj dk) ->
  assoc_last dk "findings" = Some (JArr (JObj fk :: rest)) ->
  assoc_last fk "finding_info" = Some fi ->
  assoc_last fk "resources" = Some (JArr rl) ->
  normalize b (JObj mk) = Ret nf ->
  ec2_resource rl (JStr "Unknown") = Ret (resource nf).
Proof.
  intros Hdet Hfs Hfi Hrs H.
  unfold normalize in H. simpl in H. rewrite Hdet in H. simpl in H. rewrite Hfs in H.
  simpl in H. rewrite Hfi in H. simpl in H.
  unfold normalize_ocsf in H. bind_inv H.
  simpl in *. rewrite Hrs in *. simpl in *.
  inversion Hm15; subst v15. simpl in Hm16. inversion Hm16; subst v16.
  inversion H; subst nf. exact Hm17.
Qed.

(** C10: in the structured (OCSF) variant, when the [resources] array is
    non-empty but none of its entries has type [AWS::EC2::Instance], the
    normalized [resource] stays ["Unknown"]: no identifier of a listed
    resource is used.  This holds for both handlers' normalization. *)
Theorem C10_ocsf_without_ec2_keeps_unknown :
  forall (b : bool) mk dk fk rest fi rl nf,
    assoc_last mk "detail" = Some (JObj dk) ->
    assoc_last dk "findings" = Some (JArr (JObj fk :: rest)) ->
    assoc_last fk "finding_info" = Some fi ->
    assoc_last fk "resources" = Some (JArr rl) ->
    rl <> [] ->
    ~ (exists r, In r rl /\ is_ec2_entry r) ->
    normalize b (JObj mk) = Ret nf ->
    resource nf = JStr "Unknown".
Proof.
  intros b mk dk fk rest fi rl nf Hdet Hfs Hfi Hrs _ Hno Hn.
  apply (ec2_resource_no_match rl); [|exact Hno].
  exact (normalize_ocsf_resource b mk dk fk rest fi rl nf Hdet Hfs Hfi Hrs Hn).
Qed.

Lemma C10_witness :
  match normalize true (msg_of_finding (ocsf_finding "HIGH" [s3_ocsf])) with
  | Ret nf => resource nf = JStr "Unknown"
  | Raise _ => False
  end.
Proof.
  destruct (normalize true (msg_of_finding (ocsf_finding "HIGH" [s3_ocsf]))) as [nf|e] eqn:Hn.
  - unfold msg_of_finding, ocsf_finding in Hn.
    refine (C10_ocsf_without_ec2_keeps_unknown true _ _ _ _ _ _ nf _ _ _ _ _ _ Hn);
      try reflexivity.
    + discriminate.
    + intros [r [Hin [kvs [Heq E]]]]. destruct Hin as [<-|[]].
      injection Heq as <-. discriminate E.
  - discriminate Hn.
Defined.

(** C9, as the code has it: when the unwrapped message is a JSON object with
    no [detail], or whose [detail] is an object with no [findings],
    normalization yields the defaults without raising and both handlers
    return exactly [{"status": "suppressed", "severity": "UNKNOWN"}] with
    no transport call. *)
Theorem C9_no_findings_suppressed_unknown :
  forall json_loads event mk,
    unwrap json_loads event = Ret (JObj mk) ->
    (assoc_last mk "detail" = None \/
     exists dk, assoc_last mk "detail" = Some (JObj dk) /\ assoc_last dk "findings" = None) ->
    (forall b, normalize b (JObj mk) = defaults (JObj mk)) /\
    (forall cfg ses, EmailHandler.lambda_handler cfg ses json_loads event
                     = (Ret (StatusSuppressed (JStr "UNKNOWN")), [])) /\
    (forall cfg post, SlackHandler.lambda_handler cfg post json_loads event
                      = (Ret (StatusSuppressed (JStr "UNKNOWN")), [])).
Proof.
  intros json_loads event mk Hu Hd.
  assert (Hn : forall b, normalize b (JObj mk) = defaults (JObj mk)).
  { intros b. unfold normalize. simpl.
    destruct Hd as [H | [dk [H1 H2]]].
    - rewrite H. reflexivity.
    - rewrite H1. simpl. rewrite H2. reflexivity. }
  split; [exact Hn | split].
  - intros cfg ses. unfold EmailHandler.lambda_handler. rewrite Hu, Hn. reflexivity.
  - intros cfg post. unfold SlackHandler.lambda_handler. rewrite Hu, Hn. reflexivity.
Qed.

Lemma C9_witness :
  let m := JObj [("account", JStr "111122223333"); ("detail-type", JStr "Scheduled Event");
                 ("detail", JObj [])] in
  (forall b, normalize b m = defaults m) /\
  (forall cfg ses, EmailHandler.lambda_handler cfg ses JsonParse.json_loads (event_of m)
                   = (Ret (StatusSuppressed (JStr "UNKNOWN")), [])) /\
  (forall cfg post, SlackHandler.lambda_handler cfg post JsonParse.json_loads (event_of m)
                    = (Ret (StatusSuppressed (JStr "UNKNOWN")), [])).
Proof.
  intros m. apply C9_no_findings_suppressed_unknown.
  - reflexivity.
  - right. exists []. split; reflexivity.
Defined.

(** C9 as stated fails: a message that parses to a JSON array has no
    finding array, yet [message.get("account", ...)] raises
    [AttributeError] out of both handlers instead of a [suppressed]
    result. *)
Lemma C9_array_message_raises :
  fst (EmailHandler.lambda_handler email_cfg ses_accept JsonParse.json_loads (event_of (JArr [])))
    = Raise (AttributeError "'list' object has no attribute 'get'")
  /\ fst (SlackHandler.lambda_handler slack_cfg post_accept JsonParse.json_loads (event_of (JArr [])))
    = Raise (AttributeError "'list' object has no attribute 'get'").
Proof. split; vm_compute; reflexivity. Qed.

(** C8, as the code has it.  Structured variant: the [resources] list is
    scanned up to its first entry of type [AWS::EC2::Instance], which gives
    ["{Name} ({uid})"] when its [Tags] object has a [Name] key and its [uid]
    (the default when absent) otherwise; with no such entry the default is
    kept.  Classic variant: the first [Resources] entry is used whatever its
    type, giving ["{Name} ({Id})"] when its [Tags] has [Name] and its [Id]
    otherwise.  In particular the first EC2 entry with [uid] [i-123] and tag
    [Name] [web-1] gives ["web-1 (i-123)"], and a first classic resource
    with [Id] [i-456] and no [Name] tag gives ["i-456"]. *)
Theorem C8_resource_resolution :
  (forall pre r post d,
     Forall skipped_entry pre -> is_ec2_entry r ->
     ec2_resource (pre ++ r :: post) d = (uid <- py_get r "uid" d;; name_tagged r uid)) /\
  (forall rl d x, ec2_resource rl d = Ret x -> ~ (exists r, In r rl /\ is_ec2_entry r) -> x = d) /\
  (forall kvs rest d,
     classic_resource (JArr (JObj kvs :: rest)) d
     = (id <- py_get (JObj kvs) "Id" d;; name_tagged (JObj kvs) id)) /\
  (forall kvs tkvs id,
     assoc_last kvs "Tags" = Some (JObj tkvs) ->
     name_tagged (JObj kvs) id
     = Ret (match assoc_last tkvs "Name" with
            | Some n => JStr (py_str n ++ " (" ++ py_str id ++ ")")
            | None => id
            end)) /\
  (forall kvs id, assoc_last kvs "Tags" = None -> name_tagged (JObj kvs) id = Ret id) /\
  (forall b, match normalize b (msg_of_finding (ocsf_finding "HIGH" [s3_ocsf; ec2_named])) with
             | Ret f => resource f = JStr "web-1 (i-123)"
             | Raise _ => False
             end) /\
  (forall b, match normalize b (msg_of_finding (classic_finding "HIGH" [classic_unnamed; s3_named])) with
             | Ret f => resource f = JStr "i-456"
             | Raise _ => False
             end).
Proof.
  split; [|split; [exact ec2_resource_no_match|split; [|split; [|split; [|split]]]]].
  - intros pre r post d Hpre [kvs [-> E]].
    unfold entry_type in E.
    induction Hpre as [|r' pre [kvs' [-> E']] _ IH]; simpl.
    + rewrite E. reflexivity.
    + unfold entry_type in E'. rewrite E'. exact IH.
  - intros kvs rest d. reflexivity.
  - intros kvs tkvs id H. unfold name_tagged. simpl. rewrite H. simpl.
    destruct (assoc_last tkvs "Name"); reflexivity.
  - intros kvs id H. unfold name_tagged. simpl. rewrite H. reflexivity.
  - intros []; reflexivity.
  - intros []; reflexivity.
Qed.

Lemma C8_witness :
  Forall skipped_entry [s3_ocsf] /\ is_ec2_entry ec2_named /\
  ec2_resource ([s3_ocsf] ++ [ec2_named]) (JStr "Unknown") = Ret (JStr "web-1 (i-123)").
Proof.
  assert (Hs : Forall skipped_entry [s3_ocsf])
    by (constructor; [eexists; split; reflexivity | constructor]).
  assert (He : is_ec2_entry ec2_named) by (eexists; split; reflexivity).
  split; [exact Hs|]. split; [exact He|].
  destruct C8_resource_resolution as [H _].
  rewrite (H [s3_ocsf] ec2_named [] (JStr "Unknown") Hs He).
  reflexivity.
Defined.

(** C8 as stated fails twice: a classic first resource that is an S3
    bucket named [logs] resolves to ["logs (bucket-1)"], not its bare
    identifier; and a structured finding that contains the named EC2 entry
    after an unnamed one resolves to the first EC2 entry's bare [uid]. *)
Lemma C8_named_non_ec2_and_second_ec2 :
  match normalize true (msg_of_finding (classic_finding "HIGH" [s3_named])) with
  | Ret f => resource f = JStr "logs (bucket-1)"
  | Raise _ => False
  end /\
  match normalize true (msg_of_finding (ocsf_finding "HIGH"
          [JObj [("type", JStr "AWS::EC2::Instance"); ("uid", JStr "i-999")]; ec2_named])) with
  | Ret f => resource f = JStr "i-999"
  | Raise _ => False
  end.
Proof. split; vm_compute; reflexivity. Qed.

(** * Further properties of the code *)

(** ** [sanitize_log] and the router *)

Lemma sanitize_char_clean (c : ascii) :
  nat_of_ascii (WafLogRouter.sanitize_char c) <> 13 /\
  nat_of_ascii (WafLogRouter.sanitize_char c) <> 10 /\
  nat_of_ascii (WafLogRouter.sanitize_char c) <> 9.
Proof.
  unfold WafLogRouter.sanitize_char.
  destruct ((nat_of_ascii c =? 13)%nat || (nat_of_ascii c =? 10)%nat || (nat_of_ascii c =? 9)%nat)
    eqn:E.
  - repeat split; discriminate.
  - apply orb_false_iff in E as [E E3]. apply orb_false_iff in E as [E1 E2].
    apply Nat.eqb_neq in E1, E2, E3. auto.
Qed.

Lemma sanitize_char_idem (c : ascii) :
  WafLogRouter.sanitize_char (WafLogRouter.sanitize_char c) = WafLogRouter.sanitize_char c.
Proof.
  destruct (sanitize_char_clean c) as [H1 [H2 H3]].
  unfold WafLogRouter.sanitize_char at 1.
  apply Nat.eqb_neq in H1, H2, H3. rewrite H1, H2, H3. reflexivity.
Qed.

(** [sanitize_log] (lines 10-18): for every value, the result holds no
    carriage return, newline or tab, has as many characters as [str(value)],
    and sanitizing it again changes nothing. *)
Theorem sanitize_log_props (v : json) :
  no_line_breaks (WafLogRouter.sanitize_log v) /\
  length (list_ascii_of_string (WafLogRouter.sanitize_log v))
    = length (list_ascii_of_string (py_str v)) /\
  WafLogRouter.sanitize_log (JStr (WafLogRouter.sanitize_log v)) = WafLogRouter.sanitize_log v.
Proof.
  unfold WafLogRouter.sanitize_log. simpl.
  rewrite !list_ascii_of_string_of_list_ascii. split; [|split].
  - intros c Hc. rewrite list_ascii_of_string_of_list_ascii in Hc.
    apply in_map_iff in Hc as [c' [<- _]]. apply sanitize_char_clean.
  - apply length_map.
  - rewrite map_map. f_equal. apply map_ext. apply sanitize_char_idem.
Qed.

Lemma process_record_recordId b64 loads r o :
  WafLogRouter.process_record b64 loads r = Ret o ->
  exists v, WafLogRouter.recordId o = WafLogRouter.sanitize_log v.
Proof.
  unfold WafLogRouter.process_record. intros H. bind_inv H.
  destruct (WafLogRouter.decode_record b64 loads r (WafLogRouter.sanitize_log v)) eqn:Hd.
  - inversion H; subst. apply decode_record_ok in Hd as [_ [Hid _]]. eauto.
  - bind_inv H. inversion H; subst. simpl. eauto.
Qed.

(** The router's log-injection guard as its output sees it: whenever
    [lambda_handler] returns, every entry's [recordId] is free of [\r],
    [\n] and [\t]. *)
Theorem router_recordIds_clean b64 loads event os :
  WafLogRouter.lambda_handler b64 loads event = Ret os ->
  Forall (fun o => no_line_breaks (WafLogRouter.recordId o)) os.
Proof.
  unfold WafLogRouter.lambda_handler. intros H. bind_inv H.
  clear Hm Hm0 Hm1. revert os H. induction v1 as [|r rs IH]; simpl; intros os H.
  - inversion H. constructor.
  - bind_inv H. inversion H; subst. constructor.
    + destruct (process_record_recordId _ _ _ _ Hm) as [v' ->].
      apply sanitize_log_props.
    + apply IH. exact Hm0.
Qed.

Lemma router_recordIds_clean_witness :
  WafLogRouter.lambda_handler Base64.b64decode JsonParse.json_loads
    (fh_event [fh_record ("r" ++ nl ++ "1") b64_action_BLOCK])
  = Ret [WafLogRouter.mkOut "r 1" "Ok" (JStr b64_action_BLOCK) (Some "blocked")] /\
  Forall (fun o => no_line_breaks (WafLogRouter.recordId o))
    [WafLogRouter.mkOut "r 1" "Ok" (JStr b64_action_BLOCK) (Some "blocked")].
Proof.
  assert (H : WafLogRouter.lambda_handler Base64.b64decode JsonParse.json_loads
    (fh_event [fh_record ("r" ++ nl ++ "1") b64_action_BLOCK])
    = Ret [WafLogRouter.mkOut "r 1" "Ok" (JStr b64_action_BLOCK) (Some "blocked")])
    by (vm_compute; reflexivity).
  split; [exact H | exact (router_recordIds_clean _ _ _ _ H)].
Defined.

Lemma process_all_app b64 loads pre os r post :
  WafLogRouter.process_all b64 loads pre = Ret os ->
  WafLogRouter.process_all b64 loads (pre ++ r :: post)
  = (o <- WafLogRouter.process_record b64 loads r;;
     os' <- WafLogRouter.process_all b64 loads post;; Ret ((os ++ o :: os')%list)).
Proof.
  revert os. induction pre as [|r0 pre IH]; simpl; intros os H.
  - inversion H; subst. simpl.
    destruct (WafLogRouter.process_record b64 loads r); simpl; [|reflexivity].
    destruct (WafLogRouter.process_all b64 loads post); reflexivity.
  - bind_inv H. inversion H; subst. rewrite Hm. simpl. rewrite (IH _ Hm0).
    destruct (WafLogRouter.process_record b64 loads r); simpl; [|reflexivity].
    destruct (WafLogRouter.process_all b64 loads post); reflexivity.
Qed.

Lemma process_all_objs b64 loads rs :
  Forall (fun r => exists kvs d, r = JObj kvs /\ assoc_last kvs "data" = Some d) rs ->
  exists os, WafLogRouter.process_all b64 loads rs = Ret os.
Proof.
  induction 1 as [|r rs [kvs [d [-> Hd]]] _ [os IH]].
  - eexists. reflexivity.
  - destruct (process_record_obj b64 loads kvs d Hd) as [o [Ho _]].
    exists (o :: os). simpl. rewrite Ho. simpl. rewrite IH. reflexivity.
Qed.

(** A record without [data] aborts the whole batch (lines 26-71): the [try]
    body raises [KeyError] on [record["data"]], and the [except] branch reads
    [record["data"]] again, so the [KeyError] leaves [lambda_handler]; the
    records before it, though well formed, yield no output. *)
Theorem router_missing_data_aborts b64 loads pre kvs post :
  Forall (fun r => exists kvs d, r = JObj kvs /\ assoc_last kvs "data" = Some d) pre ->
  assoc_last kvs "data" = None ->
  WafLogRouter.lambda_handler b64 loads (JObj [("records", JArr (pre ++ JObj kvs :: post))])
  = Raise (KeyError "data").
Proof.
  intros Hpre Hd. destruct (process_all_objs b64 loads pre Hpre) as [os Hos].
  unfold WafLogRouter.lambda_handler. simpl.
  rewrite (process_all_app _ _ _ _ _ _ Hos).
  unfold WafLogRouter.process_record, WafLogRouter.decode_record. simpl.
  rewrite Hd. reflexivity.
Qed.

Lemma router_missing_data_aborts_witness :
  WafLogRouter.lambda_handler Base64.b64decode JsonParse.json_loads
    (JObj [("records", JArr ([fh_record "r1" b64_action_BLOCK] ++
                             JObj [("recordId", JStr "r2")] :: []))])
  = Raise (KeyError "data").
Proof.
  apply router_missing_data_aborts.
  - constructor; [|constructor]. do 2 eexists. split; reflexivity.
  - reflexivity.
Defined.

(** The other edges of the router's loop (lines 23-27): an event without
    [records], or with an empty list, gives an empty output; a record that
    is not an object (for instance when [records] is itself an object, whose
    iteration gives its keys) makes [record.get] raise [AttributeError] out
    of [lambda_handler]. *)
Theorem router_records_edges b64 loads :
  (forall kvs, assoc_last kvs "records" = None \/ assoc_last kvs "records" = Some (JArr []) ->
     WafLogRouter.lambda_handler b64 loads (JObj kvs) = Ret []) /\
  (forall pre r post,
     Forall (fun r => exists kvs d, r = JObj kvs /\ assoc_last kvs "data" = Some d) pre ->
     (forall kvs, r <> JObj kvs) ->
     WafLogRouter.lambda_handler b64 loads (JObj [("records", JArr (pre ++ r :: post))])
     = Raise (AttributeError (type_msg r "has no attribute 'get'"))) /\
  (forall rkvs,
     rkvs <> [] ->
     WafLogRouter.lambda_handler b64 loads (JObj [("records", JObj rkvs)])
     = Raise (AttributeError "'str' object has no attribute 'get'")).
Proof.
  split; [|split].
  - intros kvs [H|H]; unfold WafLogRouter.lambda_handler; simpl; rewrite H; reflexivity.
  - intros pre r post Hpre Hr. destruct (process_all_objs b64 loads pre Hpre) as [os Hos].
    unfold WafLogRouter.lambda_handler. simpl.
    rewrite (process_all_app _ _ _ _ _ _ Hos).
    destruct r as [| | | | |kvs]; try reflexivity. exfalso. exact (Hr kvs eq_refl).
  - intros [|[k v] rkvs] H; [congruence|]. reflexivity.
Qed.

Lemma router_records_edges_witness :
  WafLogRouter.lambda_handler Base64.b64decode JsonParse.json_loads (JObj []) = Ret [] /\
  WafLogRouter.lambda_handler Base64.b64decode JsonParse.json_loads
    (JObj [("records", JArr ([fh_record "r1" b64_action_BLOCK] ++ JStr "r2" :: []))])
  = Raise (AttributeError "'str' object has no attribute 'get'") /\
  WafLogRouter.lambda_handler Base64.b64decode JsonParse.json_loads
    (JObj [("records", JObj [("r1", JNull)])])
  = Raise (AttributeError "'str' object has no attribute 'get'").
Proof.
  destruct (router_records_edges Base64.b64decode JsonParse.json_loads) as [H1 [H2 H3]].
  split; [|split].
  - apply H1. left. reflexivity.
  - apply (H2 _ (JStr "r2")); [|discriminate].
    constructor; [|constructor]. do 2 eexists. split; reflexivity.
  - apply H3. discriminate.
Defined.

(** ** Recipients: [[email.strip() for email in TO_EMAILS if email.strip()]] *)

Definition starts_nonspace (l : list (list ascii)) : Prop :=
  match l with [] => True | g :: _ => py_isspace g = false end.

Lemma lstrip_starts (l : list (list ascii)) : starts_nonspace (lstrip_l l).
Proof.
  induction l as [|g l IH]; simpl; [exact I|].
  destruct (py_isspace g) eqn:E; [exact IH | exact E].
Qed.

Lemma lstrip_id (l : list (list ascii)) : starts_nonspace l -> lstrip_l l = l.
Proof. destruct l as [|g l]; simpl; [reflexivity|]. intros ->. reflexivity. Qed.

Lemma lstrip_suffix (l : list (list ascii)) : exists p, l = (p ++ lstrip_l l)%list.
Proof.
  induction l as [|g l [p IH]]; simpl; [exists []; reflexivity|].
  destruct (py_isspace g).
  - exists (g :: p). simpl. rewrite <- IH. reflexivity.
  - exists []. reflexivity.
Qed.

(** The characters [utf8_chars] produces: non-empty, continuation bytes
    after the first, and each one after the first starting with a byte that
    is not a continuation byte. *)
Definition char_ok (g : list ascii) : Prop :=
  g <> [] /\ Forall (fun c => is_cont c = true) (tl g).

Definition chars_ok (gs : list (list ascii)) : Prop :=
  Forall char_ok gs /\ Forall (fun g => is_cont (hd "a"%char g) = false) (tl gs).

Lemma utf8_chars_ok (l : list ascii) : chars_ok (utf8_chars l).
Proof.
  induction l as [|c l [IH1 IH2]]; simpl; [split; constructor|].
  destruct (utf8_chars l) as [|[|d g] gs] eqn:E.
  - split; repeat constructor. discriminate.
  - inversion IH1 as [|? ? [Hne _] _]. congruence.
  - inversion IH1 as [|? ? [_ Hg] Hgs]; subst. simpl in Hg, IH2.
    destruct (is_cont d) eqn:Ed; split; simpl.
    + constructor; [|exact Hgs]. split; [discriminate|]. simpl. constructor; assumption.
    + exact IH2.
    + constructor; [split; [discriminate | constructor]|]. exact IH1.
    + constructor; [exact Ed | exact IH2].
Qed.

Lemma utf8_chars_cons_char (x : ascii) (t rest : list ascii) :
  Forall (fun c => is_cont c = true) t ->
  (utf8_chars rest = [] \/
   exists d g gs, utf8_chars rest = (d :: g) :: gs /\ is_cont d = false) ->
  utf8_chars (x :: t ++ rest) = (x :: t) :: utf8_chars rest.
Proof.
  intros Ht Hr. revert x. induction Ht as [|y t' Hy Ht' IH]; intros x; simpl.
  - destruct Hr as [-> | [d [g [gs [-> Hd]]]]]; [reflexivity|]. rewrite Hd. reflexivity.
  - simpl in IH. rewrite IH, Hy. reflexivity.
Qed.

Lemma utf8_chars_concat (gs : list (list ascii)) :
  chars_ok gs -> utf8_chars (concat gs) = gs.
Proof.
  induction gs as [|g gs IH]; intros [H1 H2]; [reflexivity|].
  inversion H1 as [|? ? [Hne Hg] Hgs]; subst. simpl in H2.
  assert (Hok : chars_ok gs).
  { split; [exact Hgs|]. destruct gs; simpl; [constructor|]. inversion H2; assumption. }
  destruct g as [|x t]; [congruence|]. simpl in Hg.
  change (concat ((x :: t) :: gs)) with (x :: t ++ concat gs)%list.
  rewrite (utf8_chars_cons_char x t (concat gs) Hg), (IH Hok); [reflexivity|].
  rewrite (IH Hok). destruct gs as [|[|d g'] gs']; [left; reflexivity| |].
  - inversion Hgs as [|? ? [Hne' _] _]. congruence.
  - right. exists d, g', gs'. split; [reflexivity|]. inversion H2; assumption.
Qed.

Lemma chars_ok_app_r (p q : list (list ascii)) : chars_ok (p ++ q) -> chars_ok q.
Proof.
  intros [H1 H2]. apply Forall_app in H1 as [_ Hq]. split; [exact Hq|].
  destruct p as [|g p]; simpl in H2; [exact H2|].
  apply Forall_app in H2 as [_ H2]. destruct q; simpl; [constructor|]. inversion H2; assumption.
Qed.

Lemma chars_ok_app_l (p q : list (list ascii)) : chars_ok (p ++ q) -> chars_ok p.
Proof.
  intros [H1 H2]. apply Forall_app in H1 as [Hp _]. split; [exact Hp|].
  destruct p as [|g p]; simpl in H2 |- *; [constructor|].
  apply Forall_app in H2 as [H2 _]. exact H2.
Qed.

(** [s.strip()] is idempotent. *)
Lemma py_strip_idem (s : string) : py_strip (py_strip s) = py_strip s.
Proof.
  unfold py_strip. rewrite list_ascii_of_string_of_list_ascii. f_equal.
  set (gs := utf8_chars (list_ascii_of_string s)).
  set (a := lstrip_l gs).
  set (b := lstrip_l (rev a)).
  assert (Hb : starts_nonspace b) by apply lstrip_starts.
  destruct (lstrip_suffix (rev a)) as [p Hp]. fold b in Hp.
  assert (Ha : a = (rev b ++ rev p)%list)
    by (rewrite <- rev_app_distr, <- Hp, rev_involutive; reflexivity).
  assert (Hok : chars_ok (rev b)).
  { destruct (lstrip_suffix gs) as [q Hq]. fold a in Hq.
    assert (Hg : chars_ok gs) by apply utf8_chars_ok.
    rewrite Hq, Ha in Hg. apply chars_ok_app_r, chars_ok_app_l in Hg. exact Hg. }
  rewrite (utf8_chars_concat _ Hok).
  assert (Hx : lstrip_l (rev b) = rev b).
  { apply lstrip_id.
    assert (Hs : starts_nonspace a) by apply lstrip_starts.
    rewrite Ha in Hs. destruct (rev b) as [|c r]; [exact I | exact Hs]. }
  rewrite Hx, rev_involutive, (lstrip_id b Hb). reflexivity.
Qed.

(** ** What the handlers send *)

Lemma sev_allowed_cases (s : string) :
  sev_allowed s = true -> s = "CRITICAL" \/ s = "HIGH".
Proof.
  intros H. apply sev_allowed_In in H. simpl in H. intuition.
Qed.

(** Every SES call of the email handler is the request [send_email] builds
    for an alert-worthy finding, past its two configuration checks. *)
Lemma email_call_inv cfg ses loads event req :
  In req (snd (EmailHandler.lambda_handler cfg ses loads event)) ->
  exists m f t0 rest t80,
    unwrap loads event = Ret m /\ normalize true m = Ret f /\
    sev_allowed (normalized_sev (severity f)) = true /\
    EmailHandler.FROM_EMAIL cfg = Some (EmailHandler.Source req) /\
    EmailHandler.Source req <> "" /\
    EmailHandler.TO_EMAILS cfg = t0 :: rest /\ t0 <> "" /\
    py_slice80_str (title f) = Ret t80 /\
    snd (EmailHandler.lambda_handler cfg ses loads event) = [req] /\
    let ns := normalized_sev (severity f) in
    let emoji := if String.eqb ns "CRITICAL" then EMOJI_RED else EMOJI_ORANGE in
    req = {| EmailHandler.Source := EmailHandler.Source req;
             EmailHandler.ToAddresses := map py_strip
               (filter (fun e => negb (String.eqb (py_strip e) "")) (EmailHandler.TO_EMAILS cfg));
             EmailHandler.Subject := "[" ++ EmailHandler.PROJECT_NAME cfg ++ " - "
               ++ EmailHandler.ENVIRONMENT cfg ++ "] " ++ emoji ++ " " ++ ns ++ ": " ++ t80;
             EmailHandler.TextBody := EmailHandler.text_body cfg f ns emoji;
             EmailHandler.HtmlBody := EmailHandler.html_body cfg f ns emoji (severity_color ns) |}.
Proof.
  unfold EmailHandler.lambda_handler.
  destruct (unwrap loads event) as [m|e] eqn:Hu; [|simpl; tauto].
  destruct (normalize true m) as [f|e] eqn:Hn; [|simpl; tauto].
  destruct (sev_allowed (normalized_sev (severity f))) eqn:Hs; simpl; [|tauto].
  unfold EmailHandler.send_email.
  destruct (EmailHandler.FROM_EMAIL cfg) as [[|c from]|] eqn:Hf; simpl; try tauto.
  destruct (EmailHandler.TO_EMAILS cfg) as [|[|c0 t0] rest] eqn:Ht; simpl; try tauto.
  destruct (py_slice80_str (title f)) as [t80|e] eqn:Hsl; simpl; [|tauto].
  match goal with |- context [ses ?r] => destruct (ses r) end; simpl;
    intros [<-|[]]; exists m, f, (String c0 t0), rest, t80;
    repeat split; first [assumption | reflexivity | discriminate].
Qed.

Lemma str_append_assoc (a b c : string) : (a ++ b) ++ c = a ++ b ++ c.
Proof. induction a as [|x a IH]; simpl; [reflexivity | rewrite IH; reflexivity]. Qed.

(** Every webhook call of the chat handler posts [slack_payload] of an
    alert-worthy finding to the configured URL. *)
Lemma slack_call_inv cfg post loads event u p :
  In (u, p) (snd (SlackHandler.lambda_handler cfg post loads event)) ->
  exists m f,
    unwrap loads event = Ret m /\ normalize false m = Ret f /\
    sev_allowed (normalized_sev (severity f)) = true /\
    SlackHandler.SLACK_WEBHOOK_URL cfg = Some u /\ u <> "" /\
    snd (SlackHandler.lambda_handler cfg post loads event) = [(u, p)] /\
    p = SlackHandler.slack_payload cfg f (normalized_sev (severity f)).
Proof.
  unfold SlackHandler.lambda_handler.
  destruct (unwrap loads event) as [m|e] eqn:Hu; [|simpl; tauto].
  destruct (normalize false m) as [f|e] eqn:Hn; [|simpl; tauto].
  destruct (sev_allowed (normalized_sev (severity f))) eqn:Hs; simpl; [|tauto].
  unfold SlackHandler.send_to_slack.
  destruct (SlackHandler.SLACK_WEBHOOK_URL cfg) as [[|c url]|] eqn:Hw; simpl; try tauto.
  match goal with |- context [post ?a ?b] => destruct (post a b) end; simpl;
    intros [Heq|[]]; inversion Heq; subst; exists m, f;
    repeat split; first [assumption | reflexivity | discriminate].
Qed.

(** The email handler's SES requests (lines 429-450): each one is sent from
    the configured non-empty [FROM_EMAIL], after the check that the first
    comma-separated [TO_EMAILS] entry is not empty; its destination is the
    stripped non-blank [TO_EMAILS] entries in order; its subject is
    ["[{PROJECT_NAME} - {ENVIRONMENT}] {emoji} {severity}: {title[:80]}"]
    where the severity is the upper-cased one, always CRITICAL (red circle)
    or HIGH (orange circle). *)
Theorem email_request_shape cfg ses loads event req :
  In req (snd (EmailHandler.lambda_handler cfg ses loads event)) ->
  exists m f t0 rest t80,
    unwrap loads event = Ret m /\ normalize true m = Ret f /\
    EmailHandler.FROM_EMAIL cfg = Some (EmailHandler.Source req) /\
    EmailHandler.Source req <> "" /\
    EmailHandler.TO_EMAILS cfg = t0 :: rest /\ t0 <> "" /\
    EmailHandler.ToAddresses req
      = map py_strip (filter (fun e => negb (String.eqb (py_strip e) "")) (EmailHandler.TO_EMAILS cfg)) /\
    py_slice80_str (title f) = Ret t80 /\
    ((normalized_sev (severity f) = "CRITICAL" /\
      EmailHandler.Subject req = "[" ++ EmailHandler.PROJECT_NAME cfg ++ " - "
        ++ EmailHandler.ENVIRONMENT cfg ++ "] " ++ EMOJI_RED ++ " " ++ "CRITICAL" ++ ": " ++ t80) \/
     (normalized_sev (severity f) = "HIGH" /\
      EmailHandler.Subject req = "[" ++ EmailHandler.PROJECT_NAME cfg ++ " - "
        ++ EmailHandler.ENVIRONMENT cfg ++ "] " ++ EMOJI_ORANGE ++ " " ++ "HIGH" ++ ": " ++ t80)).
Proof.
  intros H.
  destruct (email_call_inv cfg ses loads event req H)
    as [m [f [t0 [rest [t80 [Hu [Hn [Hs [Hf [Hfne [Ht [Ht0 [Hsl [_ Hreq]]]]]]]]]]]]]].
  exists m, f, t0, rest, t80.
  do 6 (split; [assumption|]).
  split; [rewrite Hreq; reflexivity|]. split; [assumption|].
  destruct (sev_allowed_cases _ Hs) as [Hc|Hc]; [left|right]; split; try exact Hc;
    rewrite Hreq; simpl; rewrite Hc; reflexivity.
Qed.

Lemma email_request_shape_witness :
  let ev := event_of (msg_of_finding (ocsf_finding "critical" [ec2_named])) in
  let cfg := email_cfg_to "ops@example.com, dev@example.com ,," in
  exists req,
    In req (snd (EmailHandler.lambda_handler cfg ses_accept JsonParse.json_loads ev)) /\
    exists m f t0 rest t80,
    unwrap JsonParse.json_loads ev = Ret m /\ normalize true m = Ret f /\
    EmailHandler.FROM_EMAIL cfg = Some (EmailHandler.Source req) /\
    EmailHandler.Source req <> "" /\
    EmailHandler.TO_EMAILS cfg = t0 :: rest /\ t0 <> "" /\
    EmailHandler.ToAddresses req
      = map py_strip (filter (fun e => negb (String.eqb (py_strip e) "")) (EmailHandler.TO_EMAILS cfg)) /\
    py_slice80_str (title f) = Ret t80 /\
    ((normalized_sev (severity f) = "CRITICAL" /\
      EmailHandler.Subject req = "[" ++ EmailHandler.PROJECT_NAME cfg ++ " - "
        ++ EmailHandler.ENVIRONMENT cfg ++ "] " ++ EMOJI_RED ++ " " ++ "CRITICAL" ++ ": " ++ t80) \/
     (normalized_sev (severity f) = "HIGH" /\
      EmailHandler.Subject req = "[" ++ EmailHandler.PROJECT_NAME cfg ++ " - "
        ++ EmailHandler.ENVIRONMENT cfg ++ "] " ++ EMOJI_ORANGE ++ " " ++ "HIGH" ++ ": " ++ t80)).
Proof.
  intros ev cfg.
  pose (calls := snd (EmailHandler.lambda_handler cfg ses_accept JsonParse.json_loads ev)).
  assert (Hc : exists req, calls = [req]) by (vm_compute; eauto).
  destruct Hc as [req Hc]. exists req.
  assert (Hin : In req calls) by (rewrite Hc; left; reflexivity).
  split; [exact Hin|].
  exact (email_request_shape cfg ses_accept JsonParse.json_loads ev req Hin).
Defined.

(** The recipients the email handler hands to SES are never blank and carry
    no surrounding whitespace, Unicode spaces such as U+00A0 included
    ([strip] is idempotent). *)
Theorem email_recipients_clean cfg ses loads event req :
  In req (snd (EmailHandler.lambda_handler cfg ses loads event)) ->
  forall a, In a (EmailHandler.ToAddresses req) -> a <> "" /\ py_strip a = a.
Proof.
  intros H a Ha.
  destruct (email_call_inv cfg ses loads event req H)
    as [m [f [t0 [rest [t80 [_ [_ [_ [_ [_ [_ [_ [_ [_ Hreq]]]]]]]]]]]]]].
  rewrite Hreq in Ha. simpl in Ha.
  apply in_map_iff in Ha as [e [<- He]]. apply filter_In in He as [_ He].
  split.
  - intros Hz. rewrite Hz in He. discriminate.
  - apply py_strip_idem.
Qed.

Lemma email_recipients_clean_witness :
  let ev := event_of (msg_of_finding (ocsf_finding "HIGH" [ec2_named])) in
  let cfg := email_cfg_to to_with_nbsp in
  exists req,
    In req (snd (EmailHandler.lambda_handler cfg ses_accept JsonParse.json_loads ev)) /\
    EmailHandler.ToAddresses req = ["ops@example.com"; "dev@example.com"] /\
    forall a, In a (EmailHandler.ToAddresses req) -> a <> "" /\ py_strip a = a.
Proof.
  intros ev cfg.
  pose (calls := snd (EmailHandler.lambda_handler cfg ses_accept JsonParse.json_loads ev)).
  assert (Hc : exists req, calls = [req] /\
                 EmailHandler.ToAddresses req = ["ops@example.com"; "dev@example.com"])
    by (vm_compute; eauto).
  destruct Hc as [req [Hc Hto]]. exists req.
  assert (Hin : In req calls) by (rewrite Hc; left; reflexivity).
  split; [exact Hin|]. split; [exact Hto|].
  exact (email_recipients_clean cfg ses_accept JsonParse.json_loads ev req Hin).
Defined.

Lemma attachment_text_head cfg f emoji :
  exists rest, SlackHandler.attachment_text cfg f emoji
    = nl ++ "*[" ++ SlackHandler.PROJECT_NAME cfg ++ "] " ++ emoji ++ " "
      ++ py_str (severity f) ++ " Security Finding*" ++ rest.
Proof.
  unfold SlackHandler.attachment_text.
  destruct (py_truthy (types f)), (py_truthy (threats f));
    eexists; rewrite !str_append_assoc; reflexivity.
Qed.

(** The chat handler's webhook calls (lines 127-166): each one goes to the
    configured non-empty [SLACK_WEBHOOK_URL]; the attachment color is that
    of the upper-cased severity, which is always CRITICAL (["#8B0000"]) or
    HIGH (["#FF0000"]); the text's headline carries the severity as the
    finding gave it, not upper-cased. *)
Theorem slack_call_shape cfg post loads event u p :
  In (u, p) (snd (SlackHandler.lambda_handler cfg post loads event)) ->
  exists m f rest,
    unwrap loads event = Ret m /\ normalize false m = Ret f /\
    SlackHandler.SLACK_WEBHOOK_URL cfg = Some u /\ u <> "" /\
    ((normalized_sev (severity f) = "CRITICAL" /\
      attachment_field p "color" = Some (JStr "#8B0000")) \/
     (normalized_sev (severity f) = "HIGH" /\
      attachment_field p "color" = Some (JStr "#FF0000"))) /\
    attachment_field p "text" =
      Some (JStr (nl ++ "*[" ++ SlackHandler.PROJECT_NAME cfg ++ "] "
                  ++ (if String.eqb (normalized_sev (severity f)) "CRITICAL"
                      then EMOJI_RED else EMOJI_ORANGE)
                  ++ " " ++ py_str (severity f) ++ " Security Finding*" ++ rest)).
Proof.
  intros H.
  destruct (slack_call_inv cfg post loads event u p H)
    as [m [f [Hu [Hn [Hs [Hw [Hne [_ ->]]]]]]]].
  destruct (attachment_text_head cfg f
              (if String.eqb (normalized_sev (severity f)) "CRITICAL" then EMOJI_RED else EMOJI_ORANGE))
    as [rest Hrest].
  exists m, f, rest.
  do 4 (split; [assumption|]). split.
  - destruct (sev_allowed_cases _ Hs) as [Hc|Hc]; [left|right];
      (split; [exact Hc|]); rewrite Hc; reflexivity.
  - simpl. rewrite Hrest. reflexivity.
Qed.

Lemma slack_call_shape_witness :
  let ev := event_of (msg_of_finding (ocsf_finding "high" [ec2_named])) in
  exists u p,
    In (u, p) (snd (SlackHandler.lambda_handler slack_cfg post_accept JsonParse.json_loads ev)) /\
    exists m f rest,
    unwrap JsonParse.json_loads ev = Ret m /\ normalize false m = Ret f /\
    SlackHandler.SLACK_WEBHOOK_URL slack_cfg = Some u /\ u <> "" /\
    ((normalized_sev (severity f) = "CRITICAL" /\
      attachment_field p "color" = Some (JStr "#8B0000")) \/
     (normalized_sev (severity f) = "HIGH" /\
      attachment_field p "color" = Some (JStr "#FF0000"))) /\
    attachment_field p "text" =
      Some (JStr (nl ++ "*[" ++ SlackHandler.PROJECT_NAME slack_cfg ++ "] "
                  ++ (if String.eqb (normalized_sev (severity f)) "CRITICAL"
                      then EMOJI_RED else EMOJI_ORANGE)
                  ++ " " ++ py_str (severity f) ++ " Security Finding*" ++ rest)).
Proof.
  intros ev.
  pose (calls := snd (SlackHandler.lambda_handler slack_cfg post_accept JsonParse.json_loads ev)).
  assert (Hc : exists u p, calls = [(u, p)]) by (vm_compute; eauto).
  destruct Hc as [u [p Hc]]. exists u, p.
  assert (Hin : In (u, p) calls) by (rewrite Hc; left; reflexivity).
  split; [exact Hin|].
  exact (slack_call_shape slack_cfg post_accept JsonParse.json_loads ev u p Hin).
Defined.

(** ** Outcomes *)

(** Both handlers make at most one transport call, and when they make one
    the outcome is decided by it alone: [ok] when it returns, [error] with
    its message when it raises (the [try] of lines 147-168 / 164-172). *)
Theorem transport_decides_outcome :
  (forall cfg ses loads event,
     let '(r, calls) := EmailHandler.lambda_handler cfg ses loads event in
     length calls <= 1 /\
     forall req, calls = [req] ->
       r = Ret (match ses req with None => StatusOk | Some msg => StatusError msg end)) /\
  (forall cfg post loads event,
     let '(r, calls) := SlackHandler.lambda_handler cfg post loads event in
     length calls <= 1 /\
     forall u p, calls = [(u, p)] ->
       r = Ret (match post u p with None => StatusOk | Some msg => StatusError msg end)).
Proof.
  split.
  - intros cfg ses loads event. unfold EmailHandler.lambda_handler.
    destruct (unwrap loads event) as [m|e]; [|split; [auto | discriminate]].
    destruct (normalize true m) as [f|e]; [|split; [auto | discriminate]].
    destruct (negb _); [split; [auto | discriminate]|].
    unfold EmailHandler.send_email.
    destruct (EmailHandler.FROM_EMAIL cfg) as [[|c from]|];
      try (split; [auto | discriminate]).
    destruct (EmailHandler.TO_EMAILS cfg) as [|[|c0 t0] rest];
      try (split; [auto | discriminate]).
    destruct (py_slice80_str (title f)); [|split; [auto | discriminate]].
    simpl. destruct (ses _) eqn:E;
      (split; [simpl; auto|]); intros req Hr; inversion Hr; subst; rewrite E; reflexivity.
  - intros cfg post loads event. unfold SlackHandler.lambda_handler.
    destruct (unwrap loads event) as [m|e]; [|split; [auto | discriminate]].
    destruct (normalize false m) as [f|e]; [|split; [auto | discriminate]].
    destruct (negb _); [split; [auto | discriminate]|].
    unfold SlackHandler.send_to_slack.
    destruct (SlackHandler.SLACK_WEBHOOK_URL cfg) as [[|c url]|];
      try (split; [auto | discriminate]).
    simpl. destruct (post _ _) eqn:E;
      (split; [simpl; auto|]); intros u p Hr; inversion Hr; subst; rewrite E; reflexivity.
Qed.

Lemma transport_decides_outcome_witness :
  let ev := event_of (msg_of_finding (ocsf_finding "HIGH" [ec2_named])) in
  fst (EmailHandler.lambda_handler email_cfg (fun _ => Some "throttled") JsonParse.json_loads ev)
  = Ret (StatusError "throttled").
Proof.
  intros ev.
  destruct transport_decides_outcome as [He _].
  pose proof (He email_cfg (fun _ => Some "throttled") JsonParse.json_loads ev) as H.
  destruct (EmailHandler.lambda_handler email_cfg (fun _ => Some "throttled") JsonParse.json_loads ev)
    as [r calls] eqn:Hr.
  destruct H as [_ H].
  assert (Hc : exists req, calls = [req]).
  { assert (E : snd (EmailHandler.lambda_handler email_cfg (fun _ => Some "throttled")
                       JsonParse.json_loads ev) = calls) by (rewrite Hr; reflexivity).
    rewrite <- E. vm_compute. eauto. }
  destruct Hc as [req Hc]. simpl. rewrite (H req Hc). reflexivity.
Defined.

(** What leaves the handlers as an exception: only an exception of the
    normalization (lines 49-136 / 43-117, outside every [try]) after a
    successful unwrap, and then no transport call has been made. *)
Theorem uncaught_only_from_normalization :
  (forall cfg ses loads event e,
     fst (EmailHandler.lambda_handler cfg ses loads event) = Raise e ->
     snd (EmailHandler.lambda_handler cfg ses loads event) = [] /\
     exists m, unwrap loads event = Ret m /\ normalize true m = Raise e) /\
  (forall cfg post loads event e,
     fst (SlackHandler.lambda_handler cfg post loads event) = Raise e ->
     snd (SlackHandler.lambda_handler cfg post loads event) = [] /\
     exists m, unwrap loads event = Ret m /\ normalize false m = Raise e).
Proof.
  split.
  - intros cfg ses loads event e. unfold EmailHandler.lambda_handler.
    destruct (unwrap loads event) as [m|e']; [|discriminate].
    destruct (normalize true m) as [f|e'] eqn:Hn; [|simpl; intros H; inversion H; subst; eauto].
    destruct (negb _); [discriminate|].
    destruct (EmailHandler.send_email cfg ses f _) as [[]]; discriminate.
  - intros cfg post loads event e. unfold SlackHandler.lambda_handler.
    destruct (unwrap loads event) as [m|e']; [|discriminate].
    destruct (normalize false m) as [f|e'] eqn:Hn; [|simpl; intros H; inversion H; subst; eauto].
    destruct (negb _); [discriminate|].
    destruct (SlackHandler.send_to_slack cfg post _) as [[]]; discriminate.
Qed.

Lemma uncaught_only_from_normalization_witness :
  snd (EmailHandler.lambda_handler email_cfg ses_accept JsonParse.json_loads
         (event_of msg_empty_findings)) = [] /\
  exists m, unwrap JsonParse.json_loads (event_of msg_empty_findings) = Ret m /\
            normalize true m = Raise IndexError.
Proof.
  destruct uncaught_only_from_normalization as [He _].
  apply (He email_cfg ses_accept JsonParse.json_loads (event_of msg_empty_findings) IndexError).
  vm_compute. reflexivity.
Defined.

(** ** Normalization *)

(** Case analysis on every [bind] and [if] of a computation assumed to
    return. *)
Ltac res_cases H :=
  unfold bind in H; cbv beta iota zeta in H;
  repeat (first
    [ match type of H with
      | context [match ?x with true => _ | false => _ end] =>
          let E := fresh "E" in destruct x eqn:E
      end
    | match type of H with
      | context [match ?x with Ret _ => _ | Raise _ => _ end] =>
          let E := fresh "E" in destruct x eqn:E
      end ];
    cbv beta iota zeta in H; try discriminate H).

(** [res_cases] on a returning [normalize], with the defaults made concrete
    and both branches opened. *)
Ltac normalize_cases H :=
  unfold normalize in H; res_cases H;
  match goal with
  | Ed : defaults _ = Ret _ |- _ => unfold defaults in Ed; res_cases Ed; injection Ed as <-
  end;
  unfold normalize_ocsf, normalize_classic in H; res_cases H.

Lemma py_or_unknown_truthy (x : json) : py_truthy (py_or x (JStr "UNKNOWN")) = true.
Proof. unfold py_or. destruct (py_truthy x) eqn:E; [exact E | reflexivity]. Qed.

(** The normalized severity is never falsy: a finding whose severity is
    missing, [null], [""] or [0] ends with ["UNKNOWN"] (the [or "UNKNOWN"]
    of lines 75 and 116), so a [suppressed] outcome never reports an empty
    severity. *)
Theorem severity_always_truthy :
  (forall b m f, normalize b m = Ret f -> py_truthy (severity f) = true) /\
  (forall cfg ses loads event s,
     fst (EmailHandler.lambda_handler cfg ses loads event) = Ret (StatusSuppressed s) ->
     py_truthy s = true) /\
  (forall cfg post loads event s,
     fst (SlackHandler.lambda_handler cfg post loads event) = Ret (StatusSuppressed s) ->
     py_truthy s = true).
Proof.
  assert (Hn : forall b m f, normalize b m = Ret f -> py_truthy (severity f) = true).
  { intros b m f H.
    normalize_cases H; injection H as <-; simpl;
      first [reflexivity | apply py_or_unknown_truthy]. }
  split; [exact Hn | split].
  - intros cfg ses loads event s. unfold EmailHandler.lambda_handler.
    destruct (unwrap loads event) as [m|e]; [|discriminate].
    destruct (normalize true m) as [f|e] eqn:E; [|discriminate].
    destruct (negb _); [simpl; intros H; inversion H; subst; exact (Hn _ _ _ E)|].
    destruct (EmailHandler.send_email cfg ses f _) as [[]]; discriminate.
  - intros cfg post loads event s. unfold SlackHandler.lambda_handler.
    destruct (unwrap loads event) as [m|e]; [|discriminate].
    destruct (normalize false m) as [f|e] eqn:E; [|discriminate].
    destruct (negb _); [simpl; intros H; inversion H; subst; exact (Hn _ _ _ E)|].
    destruct (SlackHandler.send_to_slack cfg post _) as [[]]; discriminate.
Qed.

Lemma severity_always_truthy_witness :
  let m := msg_of_finding (JObj [("finding_info", JObj []); ("severity", JStr "")]) in
  fst (SlackHandler.lambda_handler slack_cfg post_accept JsonParse.json_loads (event_of m))
    = Ret (StatusSuppressed (JStr "UNKNOWN")) /\
  py_truthy (JStr "UNKNOWN") = true.
Proof.
  intros m.
  destruct severity_always_truthy as [_ [_ Hs]].
  assert (H : fst (SlackHandler.lambda_handler slack_cfg post_accept JsonParse.json_loads (event_of m))
              = Ret (StatusSuppressed (JStr "UNKNOWN"))) by (vm_compute; reflexivity).
  split; [exact H | exact (Hs _ _ _ _ _ H)].
Defined.

(** The two handlers normalize alike: only the email handler reads
    [Remediation] (lines 97-101 and 125-129), so whenever the email
    handler's normalization returns a finding, the chat handler's returns
    the same finding with [remediation] at its default [""]. *)
Theorem normalize_email_vs_chat (m : json) (f : finding) :
  normalize true m = Ret f -> normalize false m = Ret (drop_remediation f).
Proof.
  intros H. unfold normalize, normalize_ocsf, normalize_classic, bind in *.
  cbv beta iota zeta in *.
  repeat (first
    [ match type of H with
      | context [match ?x with true => _ | false => _ end] =>
          let E := fresh "E" in destruct x eqn:E
      end
    | match type of H with
      | context [match ?x with Ret _ => _ | Raise _ => _ end] =>
          let E := fresh "E" in destruct x eqn:E
      end ];
    cbv beta iota zeta in *; try discriminate H);
  injection H as <-;
  match goal with
  | Ed : defaults _ = Ret _ |- _ => unfold defaults in Ed; res_cases Ed; injection Ed as <-
  end; reflexivity.
Qed.

Lemma normalize_email_vs_chat_witness :
  let fnd := JObj [("Title", JStr "t"); ("Severity", JObj [("Label", JStr "HIGH")]);
                   ("Remediation", JObj [("Recommendation", JObj [("Text", JStr "Close port 22")])])] in
  normalize true (msg_of_finding fnd) = Ret
    {| title := JStr "t"; severity := JStr "HIGH"; product := JStr "Security Hub";
       account := JStr "111122223333"; region := JStr "eu-west-1"; resource := JStr "Unknown";
       description := JStr ""; console_url := JStr "https://console.aws.amazon.com/securityhub/home";
       created_at := JNull; types := JArr []; threats := JArr [];
       remediation := JStr "Close port 22" |} /\
  normalize false (msg_of_finding fnd) = Ret (drop_remediation
    {| title := JStr "t"; severity := JStr "HIGH"; product := JStr "Security Hub";
       account := JStr "111122223333"; region := JStr "eu-west-1"; resource := JStr "Unknown";
       description := JStr ""; console_url := JStr "https://console.aws.amazon.com/securityhub/home";
       created_at := JNull; types := JArr []; threats := JArr [];
       remediation := JStr "Close port 22" |}).
Proof.
  intros fnd.
  assert (H : normalize true (msg_of_finding fnd) = Ret
    {| title := JStr "t"; severity := JStr "HIGH"; product := JStr "Security Hub";
       account := JStr "111122223333"; region := JStr "eu-west-1"; resource := JStr "Unknown";
       description := JStr ""; console_url := JStr "https://console.aws.amazon.com/securityhub/home";
       created_at := JNull; types := JArr []; threats := JArr [];
       remediation := JStr "Close port 22" |}) by reflexivity.
  split; [exact H | exact (normalize_email_vs_chat _ _ H)].
Defined.

Lemma py_get_obj_none (kvs : list (string * json)) (k : string) (d : json) :
  assoc_last kvs k = None -> py_get (JObj kvs) k d = Ret d.
Proof. intros H. simpl. rewrite H. reflexivity. Qed.

Lemma normalize_ocsf_console_url b f d x :
  normalize_ocsf b f d = Ret x -> console_url x = console_url d.
Proof. unfold normalize_ocsf. intros H. res_cases H; injection H as <-; reflexivity. Qed.

Lemma normalize_classic_console_url b f d x :
  normalize_classic b f d = Ret x -> console_url x = console_url d.
Proof. unfold normalize_classic. intros H. res_cases H; injection H as <-; reflexivity. Qed.

(** The console link (lines 57 and 70): when the message carries a findings
    array whose first element is an object, the normalized [console_url] is
    that finding's [SourceUrl] if it has one and the Security Hub console
    URL otherwise, in both variants. *)
Theorem console_url_of_first_finding b mk dk fk rest f :
  assoc_last mk "detail" = Some (JObj dk) ->
  assoc_last dk "findings" = Some (JArr (JObj fk :: rest)) ->
  normalize b (JObj mk) = Ret f ->
  console_url f = match assoc_last fk "SourceUrl" with
                  | Some u => u
                  | None => JStr "https://console.aws.amazon.com/securityhub/home"
                  end.
Proof.
  intros Hdet Hfs H. unfold normalize in H. simpl in H. rewrite Hdet in H. simpl in H.
  rewrite Hfs in H. simpl in H.
  destruct (match assoc_last fk "finding_info" with Some _ => true | None => false end) in H.
  - apply normalize_ocsf_console_url in H. exact H.
  - apply normalize_classic_console_url in H. exact H.
Qed.

Lemma console_url_of_first_finding_witness :
  let fk := [("finding_info", JObj []); ("SourceUrl", JStr "https://example.com/f/1")] in
  normalize false (msg_of_finding (JObj fk)) = Ret
    {| title := JStr "Security Finding"; severity := JStr "UNKNOWN";
       product := JStr "Security Hub"; account := JStr "111122223333";
       region := JStr "eu-west-1"; resource := JStr "Unknown"; description := JStr "";
       console_url := JStr "https://example.com/f/1"; created_at := JNull;
       types := JArr []; threats := JArr []; remediation := JStr "" |} /\
  console_url {| title := JStr "Security Finding"; severity := JStr "UNKNOWN";
       product := JStr "Security Hub"; account := JStr "111122223333";
       region := JStr "eu-west-1"; resource := JStr "Unknown"; description := JStr "";
       console_url := JStr "https://example.com/f/1"; created_at := JNull;
       types := JArr []; threats := JArr []; remediation := JStr "" |}
  = JStr "https://example.com/f/1".
Proof.
  intros fk.
  assert (H : normalize false (msg_of_finding (JObj fk)) = Ret
    {| title := JStr "Security Finding"; severity := JStr "UNKNOWN";
       product := JStr "Security Hub"; account := JStr "111122223333";
       region := JStr "eu-west-1"; resource := JStr "Unknown"; description := JStr "";
       console_url := JStr "https://example.com/f/1"; created_at := JNull;
       types := JArr []; threats := JArr []; remediation := JStr "" |}) by reflexivity.
  split; [exact H|].
  exact (console_url_of_first_finding false
           [("account", JStr "111122223333"); ("region", JStr "eu-west-1");
            ("detail", JObj [("findings", JArr [JObj fk])])]
           [("findings", JArr [JObj fk])] fk [] _ eq_refl eq_refl H).
Defined.

(** A first finding without a severity is reported as ["UNKNOWN"] and so
    suppressed by both handlers, with no transport call: in the structured
    variant when it has no [severity] key, in the classic variant when it
    has no [Severity] key or its [Severity] object has no [Label]. *)
Theorem missing_severity_suppressed loads event mk dk fk rest :
  unwrap loads event = Ret (JObj mk) ->
  assoc_last mk "detail" = Some (JObj dk) ->
  assoc_last dk "findings" = Some (JArr (JObj fk :: rest)) ->
  ((exists fi, assoc_last fk "finding_info" = Some fi) /\ assoc_last fk "severity" = None \/
   assoc_last fk "finding_info" = None /\
   (assoc_last fk "Severity" = None \/
    exists sk, assoc_last fk "Severity" = Some (JObj sk) /\ assoc_last sk "Label" = None)) ->
  (forall b f, normalize b (JObj mk) = Ret f -> severity f = JStr "UNKNOWN") /\
  (forall cfg ses f, normalize true (JObj mk) = Ret f ->
     EmailHandler.lambda_handler cfg ses loads event
     = (Ret (StatusSuppressed (JStr "UNKNOWN")), [])) /\
  (forall cfg post f, normalize false (JObj mk) = Ret f ->
     SlackHandler.lambda_handler cfg post loads event
     = (Ret (StatusSuppressed (JStr "UNKNOWN")), [])).
Proof.
  intros Hu Hdet Hfs Hsev.
  assert (Hn : forall b f, normalize b (JObj mk) = Ret f -> severity f = JStr "UNKNOWN").
  { intros b f H. unfold normalize in H. simpl in H. rewrite Hdet in H. simpl in H.
    rewrite Hfs in H. simpl in H.
    destruct Hsev as [[[fi Hfi] Hs] | [Hfi Hs]]; rewrite Hfi in H; simpl in H.
    - unfold normalize_ocsf in H. rewrite (py_get_obj_none _ _ _ Hs) in H.
      res_cases H; injection H as <-; reflexivity.
    - unfold normalize_classic in H.
      destruct Hs as [Hs | [sk [Hs Hl]]].
      + rewrite (py_get_obj_none _ _ _ Hs) in H. unfold bind in H. cbn [py_get assoc_last] in H.
        res_cases H; injection H as <-; reflexivity.
      + simpl in H. rewrite Hs in H. simpl in H. rewrite Hl in H.
        res_cases H; injection H as <-; reflexivity. }
  split; [exact Hn | split].
  - intros cfg ses f H. unfold EmailHandler.lambda_handler. rewrite Hu, H.
    rewrite (Hn _ _ H). reflexivity.
  - intros cfg post f H. unfold SlackHandler.lambda_handler. rewrite Hu, H.
    rewrite (Hn _ _ H). reflexivity.
Qed.

Lemma missing_severity_suppressed_witness :
  let m := msg_of_finding (JObj [("Title", JStr "t"); ("Severity", JObj [("Normalized", JNum 90)])]) in
  EmailHandler.lambda_handler email_cfg ses_accept JsonParse.json_loads (event_of m)
  = (Ret (StatusSuppressed (JStr "UNKNOWN")), []).
Proof.
  intros m.
  destruct (missing_severity_suppressed JsonParse.json_loads (event_of m)
              [("account", JStr "111122223333"); ("region", JStr "eu-west-1");
               ("detail", JObj [("findings", JArr [JObj [("Title", JStr "t");
                  ("Severity", JObj [("Normalized", JNum 90)])]])])]
              [("findings", JArr [JObj [("Title", JStr "t");
                  ("Severity", JObj [("Normalized", JNum 90)])]])]
              [("Title", JStr "t"); ("Severity", JObj [("Normalized", JNum 90)])] []
              eq_refl eq_refl eq_refl) as [_ [He _]].
  - right. split; [reflexivity|]. right. eexists. split; reflexivity.
  - exact (He email_cfg ses_accept _ eq_refl).
Defined.

(** A first finding that is not an object (a string, a number, a list...)
    makes [finding.get("SourceUrl", ...)] (line 70) raise
    [AttributeError], outside every [try]: both handlers end in that
    exception with no transport call. *)
Theorem non_object_finding_raises loads event mk dk fnd rest :
  unwrap loads event = Ret (JObj mk) ->
  assoc_last mk "detail" = Some (JObj dk) ->
  assoc_last dk "findings" = Some (JArr (fnd :: rest)) ->
  (forall kvs, fnd <> JObj kvs) ->
  (forall b, normalize b (JObj mk)
     = Raise (AttributeError (type_msg fnd "has no attribute 'get'"))) /\
  (forall cfg ses, EmailHandler.lambda_handler cfg ses loads event
     = (Raise (AttributeError (type_msg fnd "has no attribute 'get'")), [])) /\
  (forall cfg post, SlackHandler.lambda_handler cfg post loads event
     = (Raise (AttributeError (type_msg fnd "has no attribute 'get'")), [])).
Proof.
  intros Hu Hdet Hfs Hnot.
  assert (Hn : forall b, normalize b (JObj mk)
                         = Raise (AttributeError (type_msg fnd "has no attribute 'get'"))).
  { intros b. unfold normalize. simpl. rewrite Hdet. simpl. rewrite Hfs. simpl.
    destruct fnd as [| | | | |kvs]; try reflexivity. exfalso. exact (Hnot kvs eq_refl). }
  split; [exact Hn | split].
  - intros cfg ses. unfold EmailHandler.lambda_handler. rewrite Hu, Hn. reflexivity.
  - intros cfg post. unfold SlackHandler.lambda_handler. rewrite Hu, Hn. reflexivity.
Qed.

Lemma non_object_finding_raises_witness :
  let m := JObj [("detail", JObj [("findings", JArr [JStr "finding-1"])])] in
  SlackHandler.lambda_handler slack_cfg post_accept JsonParse.json_loads (event_of m)
  = (Raise (AttributeError "'str' object has no attribute 'get'"), []).
Proof.
  intros m.
  destruct (non_object_finding_raises JsonParse.json_loads (event_of m)
              [("detail", JObj [("findings", JArr [JStr "finding-1"])])]
              [("findings", JArr [JStr "finding-1"])] (JStr "finding-1") []
              eq_refl eq_refl eq_refl) as [_ [_ Hs]].
  - discriminate.
  - apply Hs.
Defined.

(** ** Unwrapping the SNS event (lines 40-47 / 34-41) *)



(** ** Delivery and configuration checks *)

Lemma config_missing_no_call_witness :
  let m := msg_of_finding (ocsf_finding "HIGH" [ec2_named]) in
  (exists msg, EmailHandler.lambda_handler (EmailHandler.mkConfig None "ops@example.com" "AWS" "prod")
                 ses_accept JsonParse.json_loads (event_of m) = (Ret (StatusError msg), [])) /\
  SlackHandler.lambda_handler (SlackHandler.mkConfig None "AWS") post_accept
    JsonParse.json_loads (event_of m)
  = (Ret (StatusError "SLACK_WEBHOOK_URL not set"), []).
Proof.
  intros m.
  assert (Hu : unwrap JsonParse.json_loads (event_of m) = Ret m) by reflexivity.
  destruct (config_missing_no_call JsonParse.json_loads (event_of m) m Hu) as [He Hs].
  split.
  - refine (He _ _ _ eq_refl _ _); [simpl; tauto | left; reflexivity].
  - refine (Hs _ _ _ eq_refl _ _); [simpl; tauto | left; reflexivity].
Defined.

Lemma slack_ok_one_call_witness :
  let m := msg_of_finding (ocsf_finding "CRITICAL" [ec2_named]) in
  exists f,
    normalize false m = Ret f /\
    SlackHandler.lambda_handler slack_cfg post_accept JsonParse.json_loads (event_of m)
    = (Ret StatusOk,
       [("https://hooks.slack.com/services/T0/B0/X0",
         SlackHandler.slack_payload slack_cfg f (normalized_sev (severity f)))]).
Proof.
  intros m. eexists. split; [reflexivity|].
  apply (slack_ok_one_call JsonParse.json_loads (event_of m) m _ slack_cfg post_accept
           "https://hooks.slack.com/services/T0/B0/X0" eq_refl eq_refl).
  - simpl. tauto.
  - reflexivity.
  - discriminate.
  - reflexivity.
Defined.

Lemma email_ok_one_call_witness :
  let m := msg_of_finding (ocsf_finding "HIGH" [ec2_named]) in
  exists req, EmailHandler.lambda_handler email_cfg ses_accept JsonParse.json_loads (event_of m)
              = (Ret StatusOk, [req]).
Proof.
  intros m.
  assert (Hu : unwrap JsonParse.json_loads (event_of m) = Ret m) by reflexivity.
  refine (email_ok_one_call JsonParse.json_loads (event_of m) m _ email_cfg ses_accept
            "alerts@example.com" "ops@example.com" []
            "SSH open to the world" Hu eq_refl _ eq_refl _ eq_refl _ eq_refl _).
  - simpl. tauto.
  - discriminate.
  - discriminate.
  - reflexivity.
Defined.
